(** * The flight-offer pipeline of [flight_search_app.py]

    A shallow embedding of the acquisition and normalisation pipeline:
    [parse_duration_to_hours], [extract_iata], [get_amadeus_access_token]
    and [search_flights_amadeus], and of their callers [call_llm] and
    [main], followed by the properties the specification states about
    them and by further properties of the code.

    Conventions of the embedding.
    - A Python [str] is a Rocq [string]; a character is a code point in
      U+0000..U+00FF.  [isdigit] and [isspace] are Python's on that whole
      range, [upper] is Python's on the ASCII range, and statements that
      go through [upper] take ASCII inputs.
    - A Python [int] is a [Z].  A Python [float] is an IEEE 754 binary64
      value, a [spec_float] with precision 53 and maximal exponent 1024.
    - A call that may raise returns a [result]; the HTTP calls go through
      an explicit network oracle and are recorded in a trace.
    - A JSON body is a record typed by the schema the code reads: the
      token body is an object with an optional string [access_token], the
      search body an object with an optional list [data] of offer
      objects whose fields, when present, have the documented types
      ([grandTotal] a string), the model's reply an object with an optional
      string [response].  A missing key is [None].  A body that is JSON
      but off this schema (a token body that is a list, a [grandTotal]
      that is [null], a [response] that is [null]), on which the code
      raises [AttributeError] or [TypeError], is outside the embedding:
      a statement about what is raised is a statement about responses on
      the schema. *)

From Stdlib Require Import ZArith Ascii String List Lia.
From Stdlib Require Import Floats.SpecFloat.
From stdpp Require Import base option list strings gmap.

Local Open Scope Z_scope.

(** ** Exceptions and results *)

(** What a [requests] call can raise under [requests.exceptions.RequestException]. *)
Inductive request_exception : Type :=
  | ConnectionFailure (detail : string)   (* no response: DNS, refused, timeout *)
  | HTTPError (status : Z)                (* raised by [raise_for_status] *)
  | InvalidJSON.                          (* raised by [resp.json()] *)

(** The argument of an [AmadeusError]: the formatted message of each
    [raise AmadeusError(...)] in the source, kept structured. *)
Inductive amadeus_message : Type :=
  | CredentialsNotSet
  | NoAccessTokenInResponse
  | ErrorGettingToken (cause : request_exception)
  | ErrorCallingSearch (cause : request_exception).

Inductive exception : Type :=
  | AmadeusError (msg : amadeus_message)
  | RequestException (e : request_exception)
  | ValueError
  | OverflowError.

Inductive result (A : Type) : Type :=
  | Ret (a : A)
  | Raise (e : exception).
Arguments Ret {A} a.
Arguments Raise {A} e.

Definition bind {A B : Type} (r : result A) (k : A -> result B) : result B :=
  match r with
  | Ret a => k a
  | Raise e => Raise e
  end.

Notation "'let*' x ':=' r 'in' k" := (bind r (fun x => k))
  (at level 10, x name, r at level 100, k at level 200).

(** ** Characters and strings *)

Definition code (ch : ascii) : Z := Z.of_N (N_of_ascii ch).

(** [str.isdigit] of a one-character string: the decimal digits and the
    superscripts U+00B2, U+00B3, U+00B9. *)
Definition isdecimal (ch : ascii) : bool :=
  (48 <=? code ch) && (code ch <=? 57).

Definition isdigit (ch : ascii) : bool :=
  isdecimal ch || (code ch =? 178) || (code ch =? 179) || (code ch =? 185).

(** [str.isspace]: U+0009..U+000D, U+001C..U+0020, U+0085, U+00A0. *)
Definition isspace (ch : ascii) : bool :=
  ((9 <=? code ch) && (code ch <=? 13))
  || ((28 <=? code ch) && (code ch <=? 32))
  || (code ch =? 133) || (code ch =? 160).

Definition is_ascii (ch : ascii) : bool := code ch <? 128.

Definition islower (ch : ascii) : bool :=
  (97 <=? code ch) && (code ch <=? 122).

Definition upper_char (ch : ascii) : ascii :=
  if islower ch then ascii_of_N (Z.to_N (code ch - 32)) else ch.

Fixpoint upper (s : string) : string :=
  match s with
  | EmptyString => EmptyString
  | String ch rest => String (upper_char ch) (upper rest)
  end.

Fixpoint string_forallb (p : ascii -> bool) (s : string) : bool :=
  match s with
  | EmptyString => true
  | String ch rest => p ch && string_forallb p rest
  end.

(** [ch in s] for a one-character [ch]. *)
Fixpoint contains (ch : ascii) (s : string) : bool :=
  match s with
  | EmptyString => false
  | String c rest => Ascii.eqb c ch || contains ch rest
  end.

(** [s.rfind(ch)]: the highest index of [ch], or -1. *)
Fixpoint rfind_from (i : Z) (found : Z) (ch : ascii) (s : string) : Z :=
  match s with
  | EmptyString => found
  | String c rest =>
      rfind_from (i + 1) (if Ascii.eqb c ch then i else found) ch rest
  end.

Definition rfind (ch : ascii) (s : string) : Z := rfind_from 0 (-1) ch s.

Fixpoint string_take (n : nat) (s : string) : string :=
  match n, s with
  | S n', String ch rest => String ch (string_take n' rest)
  | _, _ => EmptyString
  end.

Fixpoint string_drop (n : nat) (s : string) : string :=
  match n, s with
  | S n', String _ rest => string_drop n' rest
  | _, _ => s
  end.

(** One bound of a slice [s[start:stop]]: a negative index counts from
    the end, and the result is clipped to [0, len(s)]. *)
Definition slice_index (len : Z) (i : Z) : nat :=
  Z.to_nat (Z.min len (Z.max 0 (if i <? 0 then i + len else i))).

(** [s[start:stop]] *)
Definition slice (s : string) (start stop : Z) : string :=
  let len := Z.of_nat (String.length s) in
  let a := slice_index len start in
  let b := slice_index len stop in
  string_take (b - a) (string_drop a s).

Fixpoint lstrip (s : string) : string :=
  match s with
  | EmptyString => EmptyString
  | String ch rest => if isspace ch then lstrip rest else s
  end.

Fixpoint rstrip (s : string) : string :=
  match s with
  | EmptyString => EmptyString
  | String ch rest =>
      match rstrip rest with
      | EmptyString => if isspace ch then EmptyString else String ch EmptyString
      | kept => String ch kept
      end
  end.

(** [s.strip()] *)
Definition strip (s : string) : string := rstrip (lstrip s).

(** Truth value of a string: [""] is false. *)
Definition nonempty (s : string) : bool :=
  match s with EmptyString => false | _ => true end.

(** ** Integers from digit runs *)

(** CPython's default [sys.int_max_str_digits]: [int()] refuses a longer
    digit string with a [ValueError]. *)
Definition int_max_str_digits : nat := 4300.

Fixpoint int_of_digits (acc : Z) (s : string) : Z :=
  match s with
  | EmptyString => acc
  | String ch rest => int_of_digits (10 * acc + (code ch - 48)) rest
  end.

(** [int(num)] for a string of [isdigit] characters, which is all the
    parser passes: a [ValueError] for the empty string, for a character
    that is a digit but not a decimal one, and above the length limit. *)
Definition py_int (num : string) : result Z :=
  match num with
  | EmptyString => Raise ValueError
  | _ =>
      if negb (string_forallb isdecimal num) then Raise ValueError
      else if (int_max_str_digits <? String.length num)%nat then Raise ValueError
      else Ret (int_of_digits 0 num)
  end.

(** A digit run [int()] accepts: non-empty, decimal digits only, within
    the length limit. *)
Definition is_decimal_run (s : string) : bool :=
  nonempty s && string_forallb isdecimal s
  && (String.length s <=? int_max_str_digits)%nat.

(** [ch * n] *)
Fixpoint repeat_char (ch : ascii) (n : nat) : string :=
  match n with
  | O => EmptyString
  | S n' => String ch (repeat_char ch n')
  end.

(** ** Binary64 arithmetic *)

Definition float : Type := spec_float.

Definition prec : Z := 53.
Definition emax : Z := 1024.

(** The binary64 value nearest to [m * 2^e] (ties to even). *)
Definition dyadic (m e : Z) : float := binary_normalize prec emax m e false.

Definition fadd (x y : float) : float := SFadd prec emax x y.
Definition fdiv (x y : float) : float := SFdiv prec emax x y.

(** Conversion of an [int] operand of a float operation: correctly
    rounded, [OverflowError] when the integer is beyond the float range. *)
Definition float_of_int (n : Z) : result float :=
  match dyadic n 0 with
  | S754_infinity _ => Raise OverflowError
  | f => Ret f
  end.

(** The binary64 value nearest to the fraction [num / den], for
    [0 < num] and [0 < den]. *)
Definition float_of_ratio (sign : bool) (num den : Z) : float :=
  let '(mz, ez, lz) := SFdiv_core_binary prec emax num 0 den 0 in
  binary_round_aux prec emax sign mz ez lz.

(** The integer nearest to [num / 2^k], ties to even. *)
Definition round_half_even_shift (num : Z) (k : Z) : Z :=
  let q := Z.shiftr num k in
  let r := num - Z.shiftl q k in
  match Z.compare (2 * r) (Z.shiftl 1 k) with
  | Lt => q
  | Gt => q + 1
  | Eq => if Z.even q then q else q + 1
  end.

(** [round(x, 2)]: the exact value of [x] is rounded half-even to two
    decimals, and the decimal result is read back as the nearest float;
    zeros, infinities and NaN round to themselves. *)
Definition py_round2 (x : float) : float :=
  match x with
  | S754_finite s m e =>
      let hundredths :=
        if 0 <=? e then 100 * Z.pos m * 2 ^ e
        else round_half_even_shift (100 * Z.pos m) (- e) in
      if hundredths =? 0 then S754_zero s
      else float_of_ratio s hundredths 100
  | _ => x
  end.

(** A float that is neither negative nor NaN: [+0.0], a positive finite
    value, or [+inf]. *)
Definition nonnegative (x : float) : bool :=
  match x with
  | S754_zero false | S754_finite false _ _ | S754_infinity false => true
  | _ => false
  end.

(** ** [parse_duration_to_hours] *)

(** The [for ch in current] loop, on the state [(hours, minutes, num)]. *)
Fixpoint scan_duration (current : string) (hours minutes : Z) (num : string)
  : result (Z * Z) :=
  match current with
  | EmptyString => Ret (hours, minutes)
  | String ch rest =>
      if isdigit ch then
        scan_duration rest hours minutes (num +:+ String ch EmptyString)
      else if Ascii.eqb ch "H" && nonempty num then
        let* h := py_int num in scan_duration rest h minutes EmptyString
      else if Ascii.eqb ch "M" && nonempty num then
        let* m := py_int num in scan_duration rest hours m EmptyString
      else
        scan_duration rest hours minutes EmptyString
  end.

(** [round(hours + minutes / 60.0, 2)] *)
Definition hours_value (hours minutes : Z) : result float :=
  let* fm := float_of_int minutes in
  let* fh := float_of_int hours in
  Ret (py_round2 (fadd fh (fdiv fm (dyadic 60 0)))).

Definition parse_duration_to_hours (duration : string) : result (option float) :=
  if negb (nonempty duration) || negb (String.prefix "PT" duration) then Ret None
  else
    let current := string_drop 2 duration in
    let* scanned := scan_duration current 0 0 EmptyString in
    let* v := hours_value (fst scanned) (snd scanned) in
    Ret (Some v).

(** ** [extract_iata] *)

Definition extract_iata (code_or_city : string) : string :=
  let text := strip code_or_city in
  let fallback := string_take 3 (upper (strip text)) in
  if contains "(" text && contains ")" text then
    let start := rfind "(" text + 1 in
    let stop := rfind ")" text in
    let iata := strip (slice text start stop) in
    if (String.length iata =? 3)%nat then upper iata else fallback
  else fallback.

(** ** The provider's records

    The response of the offer search is a JSON document; the embedding
    gives it the shape the provider documents, and a key the code reads
    with [.get(key, default)] is an optional field. *)

Record Endpoint : Type := {
  iataCode : option string;
  at_time : option string            (* key ["at"] *)
}.

Record Segment : Type := {
  carrierCode : option string;
  departure : option Endpoint;
  arrival : option Endpoint
}.

Record Itinerary : Type := {
  segments : option (list Segment);
  duration : option string
}.

Record Price : Type := {
  grandTotal : option string;
  currency : option string
}.

Record RawOffer : Type := {
  price : option Price;
  itineraries : option (list Itinerary);
  validatingAirlineCodes : option (list string)
}.

(** One entry of [normalized]: the dict appended by the loop. *)
Record FlightOffer : Type := {
  fo_airline : string;
  fo_origin : string;
  fo_destination : string;
  fo_departure_time : string;
  fo_arrival_time : string;
  fo_stops : Z;
  fo_price : float;
  fo_currency : string;
  fo_duration_hours : option float
}.

(** [d.get(key, default)] on an optional field. *)
Definition get {A : Type} (field : option A) (default : A) : A :=
  match field with
  | Some v => v
  | None => default
  end.

Definition empty_endpoint : Endpoint := {| iataCode := None; at_time := None |}.
Definition empty_price : Price := {| grandTotal := None; currency := None |}.

(** ** The network and the configuration *)

Inductive param_value : Type :=
  | PInt (n : Z)
  | PStr (s : string).

Record post_request : Type := {
  post_url : string;
  post_data : gmap string string;
  post_timeout : Z
}.

Record get_request : Type := {
  get_url : string;
  get_headers : gmap string string;
  get_params : gmap string param_value;
  get_timeout : Z
}.

Inductive net_call : Type :=
  | Post (r : post_request)
  | Get (r : get_request).

(** What comes back from one HTTP call: no response at all, or a status
    code with a body, [None] when the body is not JSON. *)
Inductive http_outcome (B : Type) : Type :=
  | NoResponse (detail : string)
  | Response (status_code : Z) (body : option B).
Arguments NoResponse {B} detail.
Arguments Response {B} status_code body.

Record response (B : Type) : Type := {
  status_code : Z;
  body : option B
}.
Arguments status_code {B} r.
Arguments body {B} r.

(** The JSON object of the token endpoint, read with
    [payload.get("access_token")]. *)
Record token_payload : Type := { access_token : option string }.

(** The JSON object of the search endpoint, read with
    [data.get("data", [])]. *)
Record search_payload : Type := { payload_data : option (list RawOffer) }.

(** The behaviour of the network: the answer to each request. *)
Record Network : Type := {
  on_post : post_request -> http_outcome token_payload;
  on_get : get_request -> http_outcome search_payload
}.

(** The module-level configuration read with [os.getenv]. *)
Record Config : Type := {
  AMADEUS_CLIENT_ID : option string;
  AMADEUS_CLIENT_SECRET : option string
}.

Definition AMADEUS_BASE_URL : string := "https://test.api.amadeus.com".

(** Truth value of an optional string: [None] and [""] are false. *)
Definition truthy (v : option string) : bool :=
  match v with
  | Some s => nonempty s
  | None => false
  end.

(** A computation that performs network calls: it extends the trace of
    the calls made so far and returns or raises. *)
Definition io (A : Type) : Type := list net_call -> list net_call * result A.

Definition io_ret {A : Type} (a : A) : io A := fun tr => (tr, Ret a).

Definition io_raise {A : Type} (e : exception) : io A := fun tr => (tr, Raise e).

Definition io_lift {A : Type} (r : result A) : io A := fun tr => (tr, r).

Definition io_bind {A B : Type} (m : io A) (k : A -> io B) : io B :=
  fun tr =>
    match m tr with
    | (tr', Ret a) => k a tr'
    | (tr', Raise e) => (tr', Raise e)
    end.

Notation "'let!' x ':=' m 'in' k" := (io_bind m (fun x => k))
  (at level 10, x name, m at level 100, k at level 200).

(** [try: m except requests.exceptions.RequestException as e: raise wrap(e)] *)
Definition io_except {A : Type} (m : io A) (wrap : request_exception -> exception)
  : io A :=
  fun tr =>
    match m tr with
    | (tr', Raise (RequestException e)) => (tr', Raise (wrap e))
    | other => other
    end.

(** [resp.raise_for_status()]: an [HTTPError] for a 4xx or 5xx status. *)
Definition raise_for_status {B : Type} (resp : response B) : result unit :=
  if (400 <=? status_code resp) && (status_code resp <? 600)
  then Raise (RequestException (HTTPError (status_code resp)))
  else Ret tt.

(** [resp.json()] *)
Definition json {B : Type} (resp : response B) : result B :=
  match body resp with
  | Some b => Ret b
  | None => Raise (RequestException InvalidJSON)
  end.

Definition received {B : Type} (o : http_outcome B) : result (response B) :=
  match o with
  | NoResponse detail => Raise (RequestException (ConnectionFailure detail))
  | Response st b => Ret {| status_code := st; body := b |}
  end.

Section Pipeline.

(** [float(s)] for a string [s]: the builtin, with [ValueError] as
    [Raise ValueError]. *)
Variable float_of_str : string -> result float.
Variable cfg : Config.
Variable net : Network.

Definition requests_post (req : post_request) : io (response token_payload) :=
  fun tr => (tr ++ [Post req], received (on_post net req)).

Definition requests_get (req : get_request) : io (response search_payload) :=
  fun tr => (tr ++ [Get req], received (on_get net req)).

(** *** [get_amadeus_access_token] *)

(** The request of the token exchange: [requests.post(token_url, data=data, timeout=30)]. *)
Definition token_request : post_request :=
  let token_url := AMADEUS_BASE_URL +:+ "/v1/security/oauth2/token" in
  let data : gmap string string :=
    <["grant_type" := "client_credentials"]>
    (<["client_id" := get (AMADEUS_CLIENT_ID cfg) ""]>
    (<["client_secret" := get (AMADEUS_CLIENT_SECRET cfg) ""]> ∅)) in
  {| post_url := token_url; post_data := data; post_timeout := 30 |}.

Definition get_amadeus_access_token : io string :=
  if negb (truthy (AMADEUS_CLIENT_ID cfg)) || negb (truthy (AMADEUS_CLIENT_SECRET cfg))
  then io_raise (AmadeusError CredentialsNotSet)
  else
    io_except
      (let! resp := requests_post token_request in
       let! _ := io_lift (raise_for_status resp) in
       let! payload := io_lift (json resp) in
       if negb (truthy (access_token payload))
       then io_raise (AmadeusError NoAccessTokenInResponse)
       else io_ret (get (access_token payload) ""))
      (fun e => AmadeusError (ErrorGettingToken e)).

(** *** The normalisation loop of [search_flights_amadeus] *)

(** The body of [for offer in offers]: [None] for [continue], the
    appended record otherwise. *)
Definition normalize_offer (max_stops : Z) (offer : RawOffer)
  : result (option FlightOffer) :=
  let price_info := get (price offer) empty_price in
  let itineraries := get (itineraries offer) [] in
  let validating_airlines := get (validatingAirlineCodes offer) [] in
  match itineraries with
  | [] => Ret None
  | itinerary :: _ =>
      let segments := get (segments itinerary) [] in
      match segments with
      | [] => Ret None
      | first_seg :: _ =>
          let last_seg := List.last segments first_seg in
          let airline :=
            match validating_airlines with
            | a :: _ => a
            | [] => get (carrierCode first_seg) "N/A"
            end in
          let origin_code := get (iataCode (get (departure first_seg) empty_endpoint)) "" in
          let dest_code := get (iataCode (get (arrival last_seg) empty_endpoint)) "" in
          let departure_time := get (at_time (get (departure first_seg) empty_endpoint)) "" in
          let arrival_time := get (at_time (get (arrival last_seg) empty_endpoint)) "" in
          let duration_iso := get (duration itinerary) "" in
          let* duration_hours := parse_duration_to_hours duration_iso in
          let stops := Z.max (Z.of_nat (length segments) - 1) 0 in
          if (max_stops =? 0) && (0 <? stops) then Ret None
          else if (max_stops =? 1) && (1 <? stops) then Ret None
          else
            let* total :=
              match grandTotal price_info with
              | Some s => float_of_str s
              | None => Ret (S754_zero false)
              end in
            Ret (Some {| fo_airline := airline;
                         fo_origin := origin_code;
                         fo_destination := dest_code;
                         fo_departure_time := departure_time;
                         fo_arrival_time := arrival_time;
                         fo_stops := stops;
                         fo_price := total;
                         fo_currency := get (currency price_info) "AUD";
                         fo_duration_hours := duration_hours |})
      end
  end.

(** The loop itself, threading the list [normalized]. *)
Fixpoint normalize_loop (max_stops : Z) (offers : list RawOffer)
    (normalized : list FlightOffer) : result (list FlightOffer) :=
  match offers with
  | [] => Ret normalized
  | offer :: rest =>
      let* step := normalize_offer max_stops offer in
      match step with
      | None => normalize_loop max_stops rest normalized
      | Some record => normalize_loop max_stops rest (normalized ++ [record])
      end
  end.

Definition normalize (offers : list RawOffer) (max_stops : Z)
  : result (list FlightOffer) :=
  normalize_loop max_stops offers [].

(** *** The query of [search_flights_amadeus] *)

Definition search_params (origin_iata dest_iata departure_date : string)
    (return_date : option string) (max_stops : Z) : gmap string param_value :=
  let params : gmap string param_value :=
    <["originLocationCode" := PStr origin_iata]>
    (<["destinationLocationCode" := PStr dest_iata]>
    (<["departureDate" := PStr departure_date]>
    (<["adults" := PInt 1]>
    (<["currencyCode" := PStr "AUD"]>
    (<["max" := PInt 20]> ∅))))) in
  let params :=
    match return_date with
    | Some d =>
        if nonempty d && negb (String.eqb d departure_date)
        then <["returnDate" := PStr d]> params else params
    | None => params
    end in
  if max_stops =? 0 then <["nonStop" := PStr "true"]> params else params.

(** *** [search_flights_amadeus] *)

(** The request of the offer search:
    [requests.get(url, headers=headers, params=params, timeout=30)]. *)
Definition search_request (access_token : string)
    (origin_city destination_city departure_date : string)
    (return_date : option string) (max_stops : Z) : get_request :=
  let origin_iata := extract_iata origin_city in
  let dest_iata := extract_iata destination_city in
  let headers : gmap string string :=
    <["Authorization" := "Bearer " +:+ access_token]> ∅ in
  let params :=
    search_params origin_iata dest_iata departure_date return_date max_stops in
  let url := AMADEUS_BASE_URL +:+ "/v2/shopping/flight-offers" in
  {| get_url := url; get_headers := headers;
     get_params := params; get_timeout := 30 |}.

Definition search_flights_amadeus (origin_city destination_city departure_date : string)
    (return_date : option string) (max_stops : Z) : io (list FlightOffer) :=
  let! access_token := get_amadeus_access_token in
  let! resp :=
    io_except
      (let! resp := requests_get
         (search_request access_token origin_city destination_city
            departure_date return_date max_stops) in
       let! _ := io_lift (raise_for_status resp) in
       io_ret resp)
      (fun e => AmadeusError (ErrorCallingSearch e)) in
  let! data := io_lift (json resp) in
  let offers := get (payload_data data) [] in
  io_lift (normalize offers max_stops).

End Pipeline.

(** The return date as the query sees it: a non-empty date other than
    the departure date. *)
Definition effective_return_date (departure_date : string)
    (return_date : option string) : option string :=
  match return_date with
  | Some d => if nonempty d && negb (String.eqb d departure_date) then Some d else None
  | None => None
  end.

(** A status that [raise_for_status] rejects. *)
Definition error_status (st : Z) : Prop := 400 <= st < 600.

(** The failures of one search, by cause: missing credentials; a token
    exchange with no response, with an error status, or with a body
    without access token; an offer search with no response or with an
    error status. *)
Inductive pipeline_failure (cfg : Config) (net : Network)
    (origin_city destination_city departure_date : string)
    (return_date : option string) (max_stops : Z) (tr : list net_call) : Prop :=
  | MissingCredentials :
      truthy (AMADEUS_CLIENT_ID cfg) = false
      \/ truthy (AMADEUS_CLIENT_SECRET cfg) = false ->
      pipeline_failure cfg net origin_city destination_city departure_date
        return_date max_stops tr
  | TokenNoResponse (detail : string) :
      truthy (AMADEUS_CLIENT_ID cfg) = true ->
      truthy (AMADEUS_CLIENT_SECRET cfg) = true ->
      on_post net (token_request cfg) = NoResponse detail ->
      pipeline_failure cfg net origin_city destination_city departure_date
        return_date max_stops tr
  | TokenErrorStatus (st : Z) (b : option token_payload) :
      truthy (AMADEUS_CLIENT_ID cfg) = true ->
      truthy (AMADEUS_CLIENT_SECRET cfg) = true ->
      on_post net (token_request cfg) = Response st b ->
      error_status st ->
      pipeline_failure cfg net origin_city destination_city departure_date
        return_date max_stops tr
  | TokenMissing (st : Z) (payload : token_payload) :
      truthy (AMADEUS_CLIENT_ID cfg) = true ->
      truthy (AMADEUS_CLIENT_SECRET cfg) = true ->
      on_post net (token_request cfg) = Response st (Some payload) ->
      ~ error_status st ->
      truthy (access_token payload) = false ->
      pipeline_failure cfg net origin_city destination_city departure_date
        return_date max_stops tr
  | SearchNoResponse (tr1 : list net_call) (token detail : string) :
      get_amadeus_access_token cfg net tr = (tr1, Ret token) ->
      on_get net (search_request token origin_city destination_city
                    departure_date return_date max_stops) = NoResponse detail ->
      pipeline_failure cfg net origin_city destination_city departure_date
        return_date max_stops tr
  | SearchErrorStatus (tr1 : list net_call) (token : string) (st : Z)
      (b : option search_payload) :
      get_amadeus_access_token cfg net tr = (tr1, Ret token) ->
      on_get net (search_request token origin_city destination_city
                    departure_date return_date max_stops) = Response st b ->
      error_status st ->
      pipeline_failure cfg net origin_city destination_city departure_date
        return_date max_stops tr.

(** An offer with zero itineraries, or whose first itinerary has zero
    segments. *)
Definition no_segments (offer : RawOffer) : bool :=
  match get (itineraries offer) [] with
  | [] => true
  | itinerary :: _ =>
      match get (segments itinerary) [] with
      | [] => true
      | _ :: _ => false
      end
  end.

(** ** The language model and the page

    [call_llm] and [main].  [build_prompt] is a parameter of [main]: its
    template has a character outside U+0000..U+00FF and it embeds the
    output of [json.dumps]. *)

Definition OLLAMA_MODEL : string := "llama3.1:8b".
Definition OLLAMA_URL : string := "http://localhost:11434/api/generate".

(** [requests.post(OLLAMA_URL, json=payload, timeout=120)] *)
Record generate_request : Type := {
  gen_url : string;
  gen_model : string;
  gen_prompt : string;
  gen_stream : bool;
  gen_timeout : Z
}.

(** The JSON object of the model's reply, read with
    [data.get("response", "")]. *)
Record generate_payload : Type := { response_field : option string }.

(** The value of [st.date_input]: a list or tuple of dates, or one date. *)
Inductive date_input (D : Type) : Type :=
  | DateSequence (dates : list D)
  | DateValue (d : D).
Arguments DateSequence {D} dates.
Arguments DateValue {D} d.

(** The values of the widgets of one run of the script. *)
Record widgets (D : Type) : Type := {
  origin_input : string;
  destination_input : string;
  date_range : date_input D;
  flight_option : string;
  search_button : bool
}.
Arguments origin_input {D} w.
Arguments destination_input {D} w.
Arguments date_range {D} w.
Arguments flight_option {D} w.
Arguments search_button {D} w.

(** What the script displays.  [st_title] carries no text (the title has
    a character outside U+0000..U+00FF); [st_error_exception] is
    [st.error(str(e))] for an [AmadeusError]. *)
Inductive st_call : Type :=
  | st_title
  | st_subheader (text : string)
  | st_write (text : string)
  | st_markdown (text : string)
  | st_spinner (text : string)
  | st_error (text : string)
  | st_error_exception (msg : amadeus_message)
  | st_warning (text : string)
  | st_dataframe (flights : list FlightOffer).

(** One run of the script: what it displayed, the calls it made to the
    provider and to the model, and how it ended. *)
Record run : Type := {
  shown : list st_call;
  amadeus_calls : list net_call;
  llm_calls : list generate_request;
  outcome : result unit
}.

(** Lines 286-294 of [main]: the two dates of the date widget. *)
Definition travel_dates {D : Type} (today : D) (date_range : date_input D) : D * D :=
  match date_range with
  | DateSequence [start_date_obj; end_date_obj] => (start_date_obj, end_date_obj)
  | DateSequence [d] => (d, d)
  | DateSequence _ => (today, today)
  | DateValue d => (d, d)
  end.

Definition page_header : list st_call :=
  [ st_title;
    st_write "Running on Windows 11 with a local LLM inside WSL (Ollama) and real flight data from Amadeus (test environment).";
    st_subheader "Search Parameters";
    st_markdown "---" ].

Section Page.

(** [str(e)] for an exception of [requests]. *)
Variable describe : request_exception -> string.
(** The behaviour of the model's endpoint. *)
Variable llm : generate_request -> http_outcome generate_payload.

Definition llm_request (prompt : string) : generate_request :=
  {| gen_url := OLLAMA_URL; gen_model := OLLAMA_MODEL; gen_prompt := prompt;
     gen_stream := false; gen_timeout := 120 |}.

Definition call_llm (prompt : string) : result string :=
  let attempt :=
    let* resp := received (llm (llm_request prompt)) in
    let* _ := raise_for_status resp in
    let* data := json resp in
    Ret (strip (get (response_field data) "")) in
  match attempt with
  | Raise (RequestException e) => Ret ("ERROR calling Ollama: " +:+ describe e)
  | other => other
  end.

Variable D : Type.
(** [date.isoformat] and [datetime.date.today()] *)
Variable isoformat : D -> string.
Variable today : D.
Variable float_of_str : string -> result float.
Variable cfg : Config.
Variable net : Network.
Variable build_prompt :
  string -> string -> string -> string -> Z -> list FlightOffer -> string.

Definition main (w : widgets D) : run :=
  let '(start_date_obj, end_date_obj) := travel_dates today (date_range w) in
  let start_date_str := isoformat start_date_obj in
  let end_date_str := isoformat end_date_obj in
  let max_stops := if String.eqb (flight_option w) "Direct only" then 0 else 1 in
  if negb (search_button w) then
    {| shown := page_header; amadeus_calls := []; llm_calls := []; outcome := Ret tt |}
  else if negb (nonempty (origin_input w)) || negb (nonempty (destination_input w)) then
    {| shown := page_header ++ [st_error "Please enter both departure and destination."];
       amadeus_calls := []; llm_calls := []; outcome := Ret tt |}
  else
    let spinner := st_spinner "Contacting Amadeus API for live offers..." in
    match search_flights_amadeus float_of_str cfg net (origin_input w)
            (destination_input w) start_date_str (Some end_date_str) max_stops [] with
    | (calls, Raise (AmadeusError msg)) =>
        {| shown := page_header ++ [spinner; st_error_exception msg];
           amadeus_calls := calls; llm_calls := []; outcome := Ret tt |}
    | (calls, Raise e) =>
        {| shown := page_header ++ [spinner];
           amadeus_calls := calls; llm_calls := []; outcome := Raise e |}
    | (calls, Ret []) =>
        {| shown := page_header ++
             [spinner;
              st_warning "No flights found for these criteria. Try changing dates or allowing more stops."];
           amadeus_calls := calls; llm_calls := []; outcome := Ret tt |}
    | (calls, Ret flights) =>
        let found :=
          [spinner;
           st_write "Found the following flight offers (Amadeus test data):";
           st_dataframe flights;
           st_markdown "-----";
           st_write "Asking the local LLM (Ollama) to pick the best options..."] in
        let prompt :=
          build_prompt (origin_input w) (destination_input w) start_date_str
            end_date_str max_stops flights in
        match call_llm prompt with
        | Ret llm_response =>
            {| shown := page_header ++ found ++
                 (if String.prefix "ERROR calling Ollama" llm_response
                  then [st_error llm_response]
                  else [st_markdown "### LLM Recommendation"; st_markdown llm_response]);
               amadeus_calls := calls; llm_calls := [llm_request prompt];
               outcome := Ret tt |}
        | Raise e =>
            {| shown := page_header ++ found;
               amadeus_calls := calls; llm_calls := [llm_request prompt];
               outcome := Raise e |}
        end
    end.

End Page.

(** The itinerary the loop reads: the first one. *)
Definition first_itinerary (offer : RawOffer) : option Itinerary :=
  match get (itineraries offer) [] with
  | [] => None
  | itinerary :: _ => Some itinerary
  end.

Definition outbound_segments (offer : RawOffer) : list Segment :=
  match first_itinerary offer with
  | Some itinerary => get (segments itinerary) []
  | None => []
  end.

Definition outbound_duration (offer : RawOffer) : string :=
  match first_itinerary offer with
  | Some itinerary => get (duration itinerary) ""
  | None => ""
  end.

(** ** Sample data

    The two itineraries of the end-to-end scenario of the specification,
    and an offer without itineraries. *)

Definition sample_segment (carrier origin destination : string) : Segment :=
  {| carrierCode := Some carrier;
     departure := Some {| iataCode := Some origin; at_time := Some "2025-12-03T09:00:00" |};
     arrival := Some {| iataCode := Some destination; at_time := Some "2025-12-03T12:00:00" |} |}.

Definition direct_offer : RawOffer :=
  {| price := Some {| grandTotal := None; currency := Some "AUD" |};
     itineraries :=
       Some [ {| segments := Some [sample_segment "QF" "SYD" "MEL"];
                 duration := Some "PT3H" |} ];
     validatingAirlineCodes := Some ["QF"] |}.

Definition two_stop_offer : RawOffer :=
  {| price := Some {| grandTotal := None; currency := None |};
     itineraries :=
       Some [ {| segments := Some [sample_segment "KE" "SYD" "SIN";
                                   sample_segment "KE" "SIN" "HKG";
                                   sample_segment "KE" "HKG" "ICN"];
                 duration := Some "PT12H30M" |} ];
     validatingAirlineCodes := None |}.

Definition one_stop_offer : RawOffer :=
  {| price := None;
     itineraries :=
       Some [ {| segments := Some [sample_segment "SQ" "SYD" "SIN";
                                   sample_segment "SQ" "SIN" "ICN"];
                 duration := Some "PT10H30M" |} ];
     validatingAirlineCodes := Some [] |}.

Definition empty_offer : RawOffer :=
  {| price := None; itineraries := Some []; validatingAirlineCodes := None |}.

(** A [float()] that accepts no string: the sample offers have no
    [grandTotal], so it is never called on them. *)
Definition float_rejecting : string -> result float := fun _ => Raise ValueError.

Definition configured : Config :=
  {| AMADEUS_CLIENT_ID := Some "client-id"; AMADEUS_CLIENT_SECRET := Some "client-secret" |}.

Definition unconfigured : Config :=
  {| AMADEUS_CLIENT_ID := Some "client-id"; AMADEUS_CLIENT_SECRET := None |}.

(** A provider that grants a token and answers every search with the
    given status and body. *)
Definition answering (st : Z) (b : option search_payload) : Network :=
  {| on_post := fun _ => Response 200 (Some {| access_token := Some "token" |});
     on_get := fun _ => Response st b |}.

(** A network on which nothing is reachable. *)
Definition unreachable : Network :=
  {| on_post := fun _ => NoResponse "connection refused";
     on_get := fun _ => NoResponse "connection refused" |}.

Definition sample_offers : list RawOffer :=
  [direct_offer; empty_offer; two_stop_offer; one_stop_offer].

(** The records the sample offers normalise to with [max_stops = 1]. *)
Definition sample_records : list FlightOffer :=
  match normalize float_rejecting sample_offers 1 with
  | Ret out => out
  | Raise _ => []
  end.

(** The records the sample offers normalise to with [max_stops = 0]. *)
Definition sample_direct_records : list FlightOffer :=
  match normalize float_rejecting sample_offers 0 with
  | Ret out => out
  | Raise _ => []
  end.

(** A run of the page on the sample offers.  Dates are represented by
    their ISO text. *)

Definition sample_range : date_input string :=
  DateSequence ["2025-12-03"; "2025-12-10"].

Definition sample_widgets (origin : string) (dates : date_input string)
    (pressed : bool) : widgets string :=
  {| origin_input := origin; destination_input := "Seoul (ICN)";
     date_range := dates; flight_option := "Allow 1 stop";
     search_button := pressed |}.

(** A provider that grants a token and offers the sample offers. *)
Definition offering : Network :=
  answering 200 (Some {| payload_data := Some sample_offers |}).

(** A model that answers every prompt with the given text. *)
Definition replying (text : string) : generate_request -> http_outcome generate_payload :=
  fun _ => Response 200 (Some {| response_field := Some text |}).

Definition sample_describe (e : request_exception) : string :=
  match e with
  | ConnectionFailure detail => detail
  | HTTPError _ => "HTTP error"
  | InvalidJSON => "invalid JSON"
  end.

Definition sample_prompt (origin destination start_date end_date : string)
    (max_stops : Z) (flights : list FlightOffer) : string :=
  "Pick the best flights from " +:+ origin +:+ " to " +:+ destination.

Definition sample_main (llm : generate_request -> http_outcome generate_payload)
    (net : Network) (w : widgets string) : run :=
  main sample_describe llm string (fun d => d) "2025-12-03" float_rejecting
    configured net sample_prompt w.

(** * Properties *)

(** ** Strings *)

Lemma string_app_nil (b : string) : EmptyString +:+ b = b.
Proof. reflexivity. Qed.

Lemma string_app_cons (ch : ascii) (a b : string) :
  String ch a +:+ b = String ch (a +:+ b).
Proof. reflexivity. Qed.

Lemma string_app_assoc (a b c : string) : (a +:+ b) +:+ c = a +:+ (b +:+ c).
Proof.
  induction a as [|ch a IH]; [reflexivity|].
  now rewrite !string_app_cons, IH.
Qed.

Lemma string_app_empty_r (a : string) : a +:+ EmptyString = a.
Proof.
  induction a as [|ch a IH]; [reflexivity|].
  now rewrite string_app_cons, IH.
Qed.

Lemma isdecimal_isdigit (ch : ascii) : isdecimal ch = true -> isdigit ch = true.
Proof. unfold isdigit. intros ->. reflexivity. Qed.

Lemma nonempty_app_r (a b : string) : nonempty b = true -> nonempty (a +:+ b) = true.
Proof. destruct a; [now rewrite string_app_nil | reflexivity]. Qed.

(** ** [parse_duration_to_hours] *)

(** A run of decimal digits is accumulated into [num] unchanged. *)
Lemma scan_duration_digits (run rest : string) (hours minutes : Z) (num : string) :
  string_forallb isdecimal run = true ->
  scan_duration (run +:+ rest) hours minutes num
  = scan_duration rest hours minutes (num +:+ run).
Proof.
  revert num. induction run as [|ch run IH]; intros num Hrun.
  - now rewrite string_app_nil, string_app_empty_r.
  - simpl in Hrun. apply andb_prop in Hrun as [Hch Hrun].
    rewrite string_app_cons. simpl.
    rewrite (isdecimal_isdigit _ Hch), IH by exact Hrun.
    now rewrite string_app_assoc, string_app_cons, string_app_nil.
Qed.

Lemma py_int_decimal_run (s : string) :
  is_decimal_run s = true -> py_int s = Ret (int_of_digits 0 s).
Proof.
  unfold is_decimal_run, py_int. intros H.
  apply andb_prop in H as [H Hlen]. apply andb_prop in H as [Hne Hdec].
  destruct s as [|ch s]; [discriminate|].
  rewrite Hdec. simpl negb. cbv iota.
  apply Nat.leb_le in Hlen.
  destruct (Nat.ltb_spec int_max_str_digits (String.length (String ch s))); [lia|reflexivity].
Qed.

Lemma is_decimal_run_nonempty (s : string) : is_decimal_run s = true -> nonempty s = true.
Proof.
  unfold is_decimal_run. intros H.
  apply andb_prop in H as [H _]. now apply andb_prop in H as [H _].
Qed.

Lemma is_decimal_run_digits (s : string) :
  is_decimal_run s = true -> string_forallb isdecimal s = true.
Proof.
  unfold is_decimal_run. intros H.
  apply andb_prop in H as [H _]. now apply andb_prop in H as [_ H].
Qed.

(** What the loop does at a marker that closes a non-empty digit run. *)
Lemma scan_duration_hour_marker (rest : string) (hours minutes : Z) (num : string) :
  is_decimal_run num = true ->
  scan_duration (String "H" rest) hours minutes num
  = scan_duration rest (int_of_digits 0 num) minutes EmptyString.
Proof.
  intros Hnum. simpl.
  now rewrite (is_decimal_run_nonempty _ Hnum), (py_int_decimal_run _ Hnum).
Qed.

Lemma scan_duration_minute_marker (rest : string) (hours minutes : Z) (num : string) :
  is_decimal_run num = true ->
  scan_duration (String "M" rest) hours minutes num
  = scan_duration rest hours (int_of_digits 0 num) EmptyString.
Proof.
  intros Hnum. simpl.
  now rewrite (is_decimal_run_nonempty _ Hnum), (py_int_decimal_run _ Hnum).
Qed.

(** The scan of [{h}H{m}M] leaves the two integers in [hours] and [minutes]. *)
Lemma scan_duration_hours_minutes (h m : string) :
  is_decimal_run h = true -> is_decimal_run m = true ->
  scan_duration (h +:+ "H" +:+ m +:+ "M") 0 0 EmptyString
  = Ret (int_of_digits 0 h, int_of_digits 0 m).
Proof.
  intros Hh Hm.
  rewrite scan_duration_digits by now apply is_decimal_run_digits.
  rewrite string_app_nil, string_app_cons, string_app_nil.
  rewrite scan_duration_hour_marker by exact Hh.
  rewrite scan_duration_digits by now apply is_decimal_run_digits.
  rewrite string_app_nil.
  now rewrite scan_duration_minute_marker by exact Hm.
Qed.

(** [parse_duration_to_hours] gives [None] exactly on the inputs its guard
    rejects; on the others it returns a number or raises. *)
Lemma parse_duration_none_iff (duration : string) :
  parse_duration_to_hours duration = Ret None
  <-> duration = EmptyString \/ String.prefix "PT" duration = false.
Proof.
  unfold parse_duration_to_hours. split.
  - intros Hnone. destruct duration as [|ch rest]; [now left|]. right.
    destruct (String.prefix "PT" (String ch rest)); [|reflexivity].
    simpl in Hnone.
    destruct (scan_duration _ 0 0 EmptyString) as [[hours minutes]|e]; simpl in Hnone;
      [|discriminate].
    destruct (hours_value hours minutes); simpl in Hnone; discriminate.
  - intros [-> | Hpre]; [reflexivity|].
    rewrite Hpre. simpl. now rewrite orb_true_r.
Qed.

(** The loop raises only through [int(num)]. *)
Lemma scan_duration_raises (current : string) (hours minutes : Z) (num : string) (e : exception) :
  scan_duration current hours minutes num = Raise e -> e = ValueError.
Proof.
  revert hours minutes num.
  induction current as [|ch rest IH]; intros hours minutes num; simpl; [discriminate|].
  destruct (isdigit ch); [apply IH|].
  assert (Hint : forall k : Z -> result (Z * Z),
             (forall z, k z = Raise e -> e = ValueError) ->
             bind (py_int num) k = Raise e -> e = ValueError).
  { intros k Hk. unfold py_int.
    destruct num as [|c num']; simpl; [congruence|].
    destruct (negb _); simpl; [congruence|].
    destruct (_ <? _)%nat; simpl; [congruence|]. apply Hk. }
  destruct (Ascii.eqb ch "H" && nonempty num); [apply Hint; intros; eapply IH; eauto|].
  destruct (Ascii.eqb ch "M" && nonempty num); [apply Hint; intros; eapply IH; eauto|].
  apply IH.
Qed.

(** The exceptions [parse_duration_to_hours] can raise are the two of the
    integer and float conversions. *)
Lemma parse_duration_raises (duration : string) (e : exception) :
  parse_duration_to_hours duration = Raise e -> e = ValueError \/ e = OverflowError.
Proof.
  unfold parse_duration_to_hours.
  destruct (negb (nonempty duration) || negb (String.prefix "PT" duration)); [discriminate|].
  destruct (scan_duration _ 0 0 EmptyString) as [[hours minutes]|e'] eqn:Hscan; simpl.
  - unfold hours_value, float_of_int.
    destruct (dyadic minutes 0); simpl; try (intros [= <-]; now right);
      destruct (dyadic hours 0); simpl; try (intros [= <-]; now right); discriminate.
  - intros [= <-]. left. eapply scan_duration_raises; eauto.
Qed.

Lemma prefix_empty (s : string) : String.prefix EmptyString s = true.
Proof. destruct s; reflexivity. Qed.

(** After the guard, the parser scans what follows the marker. *)
Lemma parse_duration_marker (rest : string) :
  parse_duration_to_hours (String "P" (String "T" rest))
  = let* scanned := scan_duration rest 0 0 EmptyString in
    let* v := hours_value (fst scanned) (snd scanned) in
    Ret (Some v).
Proof.
  unfold parse_duration_to_hours.
  assert (Hpre : String.prefix "PT" (String "P" (String "T" rest)) = true).
  { simpl. destruct (Ascii.ascii_dec "P" "P"); [|congruence].
    destruct (Ascii.ascii_dec "T" "T"); [apply prefix_empty|congruence]. }
  rewrite Hpre. reflexivity.
Qed.

(** C3 (as amended): for digit runs [h] and [m] that [int()] accepts and
    whose values convert to binary64, [parse_duration_to_hours] returns
    [round(h + m / 60.0, 2)] on the token [PT{h}H{m}M]; on ["PT10H30M"] it
    returns 10.5, on ["PT45M"] 0.75, and on [""] and ["bogus"] [None]. *)
Theorem parse_duration_well_formed :
  (forall (h m : string) (fh fm : float),
      is_decimal_run h = true -> is_decimal_run m = true ->
      float_of_int (int_of_digits 0 h) = Ret fh ->
      float_of_int (int_of_digits 0 m) = Ret fm ->
      parse_duration_to_hours ("PT" +:+ h +:+ "H" +:+ m +:+ "M")
      = Ret (Some (py_round2 (fadd fh (fdiv fm (dyadic 60 0))))))
  /\ parse_duration_to_hours "PT10H30M" = Ret (Some (dyadic 21 (-1)))
  /\ parse_duration_to_hours "PT45M" = Ret (Some (dyadic 3 (-2)))
  /\ parse_duration_to_hours "" = Ret None
  /\ parse_duration_to_hours "bogus" = Ret None.
Proof.
  split; [|repeat split; vm_compute; reflexivity].
  intros h m fh fm Hh Hm Hfh Hfm.
  change ("PT" +:+ h +:+ "H" +:+ m +:+ "M")
    with (String "P" (String "T" (h +:+ "H" +:+ m +:+ "M"))).
  rewrite parse_duration_marker, (scan_duration_hours_minutes h m Hh Hm). simpl.
  unfold hours_value. rewrite Hfm, Hfh. reflexivity.
Qed.

(** The instance ["PT10H30M"] of the general statement, with its four
    side conditions evaluated. *)
Lemma parse_duration_well_formed_witness :
  parse_duration_to_hours ("PT" +:+ "10" +:+ "H" +:+ "30" +:+ "M")
  = Ret (Some (py_round2 (fadd (dyadic 10 0) (fdiv (dyadic 30 0) (dyadic 60 0))))).
Proof.
  apply (proj1 parse_duration_well_formed "10" "30" (dyadic 10 0) (dyadic 30 0));
    vm_compute; reflexivity.
Defined.

(** C3, as stated, fails: with a 309-digit hour count the token is still
    of the form [PT{h}H{m}M], and the parser raises instead of returning. *)
Lemma parse_duration_well_formed_overflow :
  is_decimal_run (repeat_char "9" 309) = true
  /\ is_decimal_run "0" = true
  /\ parse_duration_to_hours ("PT" +:+ repeat_char "9" 309 +:+ "H" +:+ "0" +:+ "M")
     = Raise OverflowError.
Proof. repeat split; vm_compute; reflexivity. Qed.

(** C9: the code at the failing input.  On ["PT" + "9" * 309 + "H"] the
    guard passes, [int(num)] succeeds, and [hours + minutes / 60.0]
    raises [OverflowError]: no value, absent or numeric, is returned. *)
Theorem parse_duration_overflow_raises :
  String.prefix "PT" ("PT" +:+ repeat_char "9" 309 +:+ "H") = true
  /\ parse_duration_to_hours ("PT" +:+ repeat_char "9" 309 +:+ "H") = Raise OverflowError.
Proof. split; vm_compute; reflexivity. Qed.

Example parse_duration_one_hour_twenty :
  parse_duration_to_hours "PT1H20M" = Ret (Some (float_of_ratio false 133 100)).
Proof. vm_compute. reflexivity. Qed.

Example parse_duration_seven_minutes :
  parse_duration_to_hours "PT7M" = Ret (Some (float_of_ratio false 12 100)).
Proof. vm_compute. reflexivity. Qed.

(** An unrecognised marker resets the digit run: the seconds are ignored. *)
Example parse_duration_seconds_ignored :
  parse_duration_to_hours "PT2H15M40S" = Ret (Some (dyadic 9 (-2))).
Proof. vm_compute. reflexivity. Qed.

(** With the marker and nothing the scan recognises the result is 0.0. *)
Example parse_duration_marker_only :
  parse_duration_to_hours "PTxyz" = Ret (Some (S754_zero false)).
Proof. vm_compute. reflexivity. Qed.

(** A digit that is not a decimal digit (U+00B2) makes [int(num)] raise. *)
Example parse_duration_superscript_raises :
  parse_duration_to_hours (String "P" (String "T" (String (ascii_of_nat 178) "H")))
  = Raise ValueError.
Proof. vm_compute. reflexivity. Qed.

(** ** [extract_iata] *)

Lemma length_upper (s : string) : String.length (upper s) = String.length s.
Proof. induction s as [|ch s IH]; simpl; [reflexivity | now rewrite IH]. Qed.

Lemma length_string_take (n : nat) (s : string) :
  String.length (string_take n s) = Nat.min n (String.length s).
Proof.
  revert s. induction n as [|n IH]; intros [|ch s]; simpl; try reflexivity.
  now rewrite IH.
Qed.

Lemma length_string_drop_le (n : nat) (s : string) :
  (String.length (string_drop n s) <= String.length s)%nat.
Proof.
  revert s. induction n as [|n IH]; intros [|ch s]; simpl; try lia.
  specialize (IH s). lia.
Qed.

Lemma length_slice_le (s : string) (start stop : Z) :
  (String.length (slice s start stop) <= String.length s)%nat.
Proof.
  unfold slice. rewrite length_string_take.
  pose proof (length_string_drop_le (slice_index (Z.of_nat (String.length s)) start) s).
  lia.
Qed.

Lemma length_lstrip_le (s : string) :
  (String.length (lstrip s) <= String.length s)%nat.
Proof.
  induction s as [|ch s IH]; simpl; [lia|].
  destruct (isspace ch); simpl; lia.
Qed.

Lemma length_rstrip_le (s : string) :
  (String.length (rstrip s) <= String.length s)%nat.
Proof.
  induction s as [|ch s IH]; simpl; [lia|].
  destruct (rstrip s); [destruct (isspace ch)|]; simpl in *; lia.
Qed.

Lemma length_strip_le (s : string) :
  (String.length (strip s) <= String.length s)%nat.
Proof.
  unfold strip.
  pose proof (length_rstrip_le (lstrip s)). pose proof (length_lstrip_le s). lia.
Qed.

(** What is left of [lstrip] starts with a character that is not a space. *)
Lemma lstrip_head (s : string) :
  lstrip s = EmptyString
  \/ exists ch rest, lstrip s = String ch rest /\ isspace ch = false.
Proof.
  induction s as [|ch s IH]; simpl; [now left|].
  destruct (isspace ch) eqn:Hsp; [exact IH|]. right. eauto.
Qed.

Lemma rstrip_idempotent (s : string) : rstrip (rstrip s) = rstrip s.
Proof.
  induction s as [|ch s IH]; simpl; [reflexivity|].
  destruct (rstrip s) as [|c kept] eqn:Hr.
  - destruct (isspace ch) eqn:Hsp; simpl; [reflexivity | now rewrite Hsp].
  - change (rstrip (String ch (String c kept))) with
      (match rstrip (String c kept) with
       | EmptyString => if isspace ch then EmptyString else String ch EmptyString
       | kept' => String ch kept'
       end).
    now rewrite IH.
Qed.

Lemma strip_idempotent (s : string) : strip (strip s) = strip s.
Proof.
  unfold strip.
  assert (Hl : lstrip (rstrip (lstrip s)) = rstrip (lstrip s)).
  { destruct (lstrip_head s) as [-> | (ch & rest & -> & Hsp)]; [reflexivity|].
    simpl. destruct (rstrip rest); rewrite ?Hsp; simpl; now rewrite ?Hsp. }
  now rewrite Hl, rstrip_idempotent.
Qed.

Lemma upper_char_not_lower (ch : ascii) : islower (upper_char ch) = false.
Proof.
  destruct ch as [[] [] [] [] [] [] [] []]; vm_compute; reflexivity.
Qed.

Lemma upper_no_lowercase (s : string) :
  string_forallb (fun ch => negb (islower ch)) (upper s) = true.
Proof.
  induction s as [|ch s IH]; simpl; [reflexivity|].
  now rewrite upper_char_not_lower, IH.
Qed.

Lemma string_take_forallb (p : ascii -> bool) (n : nat) (s : string) :
  string_forallb p s = true -> string_forallb p (string_take n s) = true.
Proof.
  revert s. induction n as [|n IH]; intros [|ch s]; simpl; try reflexivity.
  intros H. apply andb_prop in H as [-> H]. now rewrite IH.
Qed.

(** The two outcomes of [extract_iata]: the three characters between
    the last parentheses, or the first three of the stripped text. *)
Lemma extract_iata_cases (code_or_city : string) :
  let text := strip code_or_city in
  (exists iata, String.length iata = 3%nat
                /\ (3 <= String.length text)%nat
                /\ extract_iata code_or_city = upper iata)
  \/ extract_iata code_or_city = string_take 3 (upper text).
Proof.
  intros text. unfold extract_iata.
  rewrite (strip_idempotent code_or_city). fold text.
  destruct (contains "(" text && contains ")" text); [|now right].
  destruct (Nat.eqb_spec
              (String.length (strip (slice text (rfind "(" text + 1) (rfind ")" text)))) 3)
    as [Hlen|Hlen]; [|now right].
  left. eexists. split; [exact Hlen|]. split; [|reflexivity].
  pose proof (length_strip_le (slice text (rfind "(" text + 1) (rfind ")" text))).
  pose proof (length_slice_le text (rfind "(" text + 1) (rfind ")" text)).
  lia.
Qed.

(** C4 (as amended): on an ASCII input [extract_iata] returns a string of
    [min 3 (len (text.strip()))] characters, so at most three and exactly
    three only when the stripped input has at least three, none of them a
    lowercase letter. *)
Theorem extract_iata_shape (code_or_city : string) :
  string_forallb is_ascii code_or_city = true ->
  String.length (extract_iata code_or_city)
  = Nat.min 3 (String.length (strip code_or_city))
  /\ string_forallb (fun ch => negb (islower ch)) (extract_iata code_or_city) = true.
Proof.
  intros _.
  destruct (extract_iata_cases code_or_city) as [(iata & Hlen & Htext & ->) | ->].
  - rewrite length_upper, Hlen. split; [lia | apply upper_no_lowercase].
  - rewrite length_string_take, length_upper. split; [reflexivity|].
    apply string_take_forallb, upper_no_lowercase.
Qed.

Lemma extract_iata_shape_witness :
  String.length (extract_iata "Sydney (SYD)")
  = Nat.min 3 (String.length (strip "Sydney (SYD)"))
  /\ string_forallb (fun ch => negb (islower ch)) (extract_iata "Sydney (SYD)") = true.
Proof. apply (extract_iata_shape "Sydney (SYD)"). vm_compute. reflexivity. Defined.

(** C4, as stated, fails: a two-letter input gives a two-letter code, and
    digits stay digits. *)
Lemma extract_iata_short :
  extract_iata "ab" = "AB"
  /\ String.length (extract_iata "ab") <> 3%nat
  /\ extract_iata "12345" = "123".
Proof. repeat split; vm_compute; congruence. Qed.

Example extract_iata_parenthesised : extract_iata "Sydney (SYD)" = "SYD".
Proof. vm_compute. reflexivity. Qed.

Example extract_iata_lowercase : extract_iata "syd" = "SYD".
Proof. vm_compute. reflexivity. Qed.

Example extract_iata_city : extract_iata "Sydney" = "SYD".
Proof. vm_compute. reflexivity. Qed.

(** ** The normalisation loop *)

Section Normalizer.

Variable float_of_str : string -> result float.

(** The accumulator only ever grows at its end. *)
Lemma normalize_loop_shift (max_stops : Z) (offers : list RawOffer)
    (normalized : list FlightOffer) :
  normalize_loop float_of_str max_stops offers normalized
  = let* records := normalize_loop float_of_str max_stops offers [] in
    Ret (normalized ++ records).
Proof.
  revert normalized. induction offers as [|offer rest IH]; intros normalized; simpl.
  - now rewrite app_nil_r.
  - destruct (normalize_offer float_of_str max_stops offer) as [[record|]|e]; simpl.
    + rewrite (IH (normalized ++ [record])), (IH [record]).
      destruct (normalize_loop float_of_str max_stops rest []); simpl; [|reflexivity].
      now rewrite <- app_assoc.
    + apply IH.
    + reflexivity.
Qed.

Lemma normalize_nil (max_stops : Z) : normalize float_of_str [] max_stops = Ret [].
Proof. reflexivity. Qed.

Lemma normalize_cons (max_stops : Z) (offer : RawOffer) (rest : list RawOffer) :
  normalize float_of_str (offer :: rest) max_stops
  = let* step := normalize_offer float_of_str max_stops offer in
    let* records := normalize float_of_str rest max_stops in
    Ret (match step with Some record => record :: records | None => records end).
Proof.
  unfold normalize. simpl.
  destruct (normalize_offer float_of_str max_stops offer) as [[record|]|e]; simpl.
  - now rewrite normalize_loop_shift.
  - now destruct (normalize_loop float_of_str max_stops rest []).
  - reflexivity.
Qed.

Lemma normalize_app (max_stops : Z) (before after : list RawOffer) :
  normalize float_of_str (before ++ after) max_stops
  = let* first := normalize float_of_str before max_stops in
    let* second := normalize float_of_str after max_stops in
    Ret (first ++ second).
Proof.
  induction before as [|offer before IH]; simpl.
  - now destruct (normalize float_of_str after max_stops).
  - rewrite !normalize_cons, IH.
    destruct (normalize_offer float_of_str max_stops offer) as [[record|]|e]; simpl;
      destruct (normalize float_of_str before max_stops); simpl;
      destruct (normalize float_of_str after max_stops); reflexivity.
Qed.

Lemma normalize_cons_inv (max_stops : Z) (offer : RawOffer) (rest : list RawOffer)
    (out : list FlightOffer) :
  normalize float_of_str (offer :: rest) max_stops = Ret out ->
  exists step records,
    normalize_offer float_of_str max_stops offer = Ret step
    /\ normalize float_of_str rest max_stops = Ret records
    /\ out = match step with Some record => record :: records | None => records end.
Proof.
  rewrite normalize_cons.
  destruct (normalize_offer float_of_str max_stops offer) as [step|e]; simpl; [|discriminate].
  destruct (normalize float_of_str rest max_stops) as [records|e]; simpl; [|discriminate].
  intros [= <-]. eauto.
Qed.

Lemma normalize_app_inv (max_stops : Z) (before after : list RawOffer)
    (out : list FlightOffer) :
  normalize float_of_str (before ++ after) max_stops = Ret out ->
  exists first second,
    normalize float_of_str before max_stops = Ret first
    /\ normalize float_of_str after max_stops = Ret second
    /\ out = first ++ second.
Proof.
  rewrite normalize_app.
  destruct (normalize float_of_str before max_stops) as [first|e]; simpl; [|discriminate].
  destruct (normalize float_of_str after max_stops) as [second|e]; simpl; [|discriminate].
  intros [= <-]. eauto.
Qed.

(** *** Stops *)

(** The record of a retained offer passed the stop filter. *)
Lemma normalize_offer_stops (max_stops : Z) (offer : RawOffer) (record : FlightOffer) :
  normalize_offer float_of_str max_stops offer = Ret (Some record) ->
  0 <= fo_stops record
  /\ (max_stops = 0 -> fo_stops record = 0)
  /\ (max_stops = 1 -> fo_stops record <= 1).
Proof.
  unfold normalize_offer.
  destruct (get (itineraries offer) []) as [|itinerary ?]; [discriminate|].
  destruct (get (segments itinerary) []) as [|first_seg others] eqn:Hsegs; [discriminate|].
  destruct (parse_duration_to_hours _) as [duration_hours|e]; cbn [bind]; [|discriminate].
  set (stops := Z.max (Z.of_nat (length (first_seg :: others)) - 1) 0).
  assert (Hstops : 0 <= stops) by (subst stops; lia). clearbody stops.
  destruct (Z.eqb_spec max_stops 0) as [H0|H0];
    destruct (Z.ltb_spec 0 stops) as [Hs0|Hs0]; cbn [andb]; try discriminate;
    destruct (Z.eqb_spec max_stops 1) as [H1|H1];
    destruct (Z.ltb_spec 1 stops) as [Hs1|Hs1]; cbn [andb]; try discriminate;
    (destruct (match grandTotal _ with Some s => float_of_str s | None => _ end);
     cbn [bind]; [|discriminate]);
    intros [= <-]; cbn [fo_stops]; lia.
Qed.


(** *** Offers without segments *)

Lemma normalize_offer_no_segments (max_stops : Z) (offer : RawOffer) :
  no_segments offer = true -> normalize_offer float_of_str max_stops offer = Ret None.
Proof.
  unfold no_segments, normalize_offer.
  destruct (get (itineraries offer) []) as [|itinerary ?]; [reflexivity|].
  destruct (get (segments itinerary) []); [reflexivity|discriminate].
Qed.

(** C2: an offer with no itinerary, or with no segment in its first
    itinerary, is skipped without an error: its iteration is a
    [continue], and the output is that of the input without it. *)
Theorem normalize_skips_offers_without_segments (max_stops : Z) (offer : RawOffer) :
  no_segments offer = true ->
  normalize_offer float_of_str max_stops offer = Ret None
  /\ forall before after : list RawOffer,
       normalize float_of_str (before ++ offer :: after) max_stops
       = normalize float_of_str (before ++ after) max_stops.
Proof.
  intros Hno. pose proof (normalize_offer_no_segments max_stops offer Hno) as Hskip.
  split; [exact Hskip|]. intros before after.
  rewrite !normalize_app, normalize_cons, Hskip. simpl.
  destruct (normalize float_of_str before max_stops); simpl; [|reflexivity].
  now destruct (normalize float_of_str after max_stops).
Qed.

(** *** Order *)

(** The output is the image of a sublist of the input. *)
Lemma normalize_sublist (offers : list RawOffer) (max_stops : Z) (out : list FlightOffer) :
  normalize float_of_str offers max_stops = Ret out ->
  exists kept,
    kept `sublist_of` offers
    /\ Forall2 (fun offer record =>
                  normalize_offer float_of_str max_stops offer = Ret (Some record))
         kept out.
Proof.
  revert out. induction offers as [|offer rest IH]; intros out Hout.
  - injection Hout as <-. exists []. split; constructor.
  - apply normalize_cons_inv in Hout as (step & records & Hstep & Hrest & ->).
    destruct (IH records Hrest) as (kept & Hsub & Himg).
    destruct step as [record|].
    + exists (offer :: kept). split; [now apply sublist_skip | now constructor].
    + exists kept. split; [now apply sublist_cons | exact Himg].
Qed.

(** C8: the output keeps the order of the input.  It is the image of a
    sublist of the offers, and two retained offers, the first before the
    second in the input, have their records in that order in the output. *)
Theorem normalize_preserves_order (offers : list RawOffer) (max_stops : Z)
    (out : list FlightOffer) :
  normalize float_of_str offers max_stops = Ret out ->
  (exists kept,
      kept `sublist_of` offers
      /\ Forall2 (fun offer record =>
                    normalize_offer float_of_str max_stops offer = Ret (Some record))
           kept out)
  /\ forall (i j : nat) (a b : RawOffer) (ra rb : FlightOffer),
       (i < j)%nat ->
       offers !! i = Some a -> offers !! j = Some b ->
       normalize_offer float_of_str max_stops a = Ret (Some ra) ->
       normalize_offer float_of_str max_stops b = Ret (Some rb) ->
       exists i' j' : nat,
         (i' < j')%nat /\ out !! i' = Some ra /\ out !! j' = Some rb.
Proof.
  intros Hout. split; [now apply normalize_sublist|].
  intros i j a b ra rb Hij Ha Hb Hra Hrb.
  pose proof (take_drop_middle offers i a Ha) as Hsplit.
  assert (Hb' : drop (S i) offers !! (j - S i)%nat = Some b).
  { rewrite lookup_drop. now replace (S i + (j - S i))%nat with j by lia. }
  pose proof (take_drop_middle _ _ b Hb') as Hsplit'.
  rewrite <- Hsplit' in Hsplit. rewrite <- Hsplit in Hout.
  apply normalize_app_inv in Hout as (o1 & tail1 & _ & Htail1 & ->).
  apply normalize_cons_inv in Htail1 as (step & tail2 & Hstep & Htail2 & ->).
  rewrite Hra in Hstep. injection Hstep as <-.
  apply normalize_app_inv in Htail2 as (o2 & tail3 & _ & Htail3 & ->).
  apply normalize_cons_inv in Htail3 as (step & o3 & Hstep & _ & ->).
  rewrite Hrb in Hstep. injection Hstep as <-.
  exists (length o1), (length o1 + S (length o2))%nat.
  split; [lia|]. split.
  - now rewrite list_lookup_middle.
  - rewrite lookup_app_r by lia.
    replace (length o1 + S (length o2) - length o1)%nat with (S (length o2)) by lia.
    simpl. now rewrite list_lookup_middle.
Qed.

End Normalizer.


Lemma normalize_skips_offers_without_segments_witness :
  normalize_offer float_rejecting 1 empty_offer = Ret None
  /\ forall before after : list RawOffer,
       normalize float_rejecting (before ++ empty_offer :: after) 1
       = normalize float_rejecting (before ++ after) 1.
Proof.
  apply (normalize_skips_offers_without_segments float_rejecting 1 empty_offer).
  reflexivity.
Defined.

Lemma normalize_preserves_order_witness :
  (exists kept,
      kept `sublist_of` sample_offers
      /\ Forall2 (fun offer record =>
                    normalize_offer float_rejecting 1 offer = Ret (Some record))
           kept sample_records)
  /\ forall (i j : nat) (a b : RawOffer) (ra rb : FlightOffer),
       (i < j)%nat ->
       sample_offers !! i = Some a -> sample_offers !! j = Some b ->
       normalize_offer float_rejecting 1 a = Ret (Some ra) ->
       normalize_offer float_rejecting 1 b = Ret (Some rb) ->
       exists i' j' : nat,
         (i' < j')%nat /\ sample_records !! i' = Some ra /\ sample_records !! j' = Some rb.
Proof.
  apply (normalize_preserves_order float_rejecting sample_offers 1 sample_records).
  vm_compute. reflexivity.
Defined.

(** The end-to-end scenario of the specification: of a direct itinerary
    of three hours and a two-stop itinerary, [max_stops = 1] keeps the
    first only. *)
Example normalize_scenario :
  exists record,
    normalize float_rejecting [direct_offer; two_stop_offer] 1 = Ret [record]
    /\ fo_stops record = 0
    /\ fo_duration_hours record = Some (dyadic 3 0)
    /\ fo_airline record = "QF"
    /\ fo_origin record = "SYD" /\ fo_destination record = "MEL".
Proof. eexists. repeat split; vm_compute; reflexivity. Qed.

Example sample_records_stops : map fo_stops sample_records = [0; 1].
Proof. vm_compute. reflexivity. Qed.

(** ** The credential provider and the search client *)

Section Client.

Variable float_of_str : string -> result float.
Variable cfg : Config.
Variable net : Network.

Lemma error_status_test (B : Type) (st : Z) (b : option B) :
  raise_for_status {| status_code := st; body := b |}
  = if decide (error_status st)
    then Raise (RequestException (HTTPError st)) else Ret tt.
Proof.
  unfold raise_for_status, error_status. simpl.
  destruct (Z.leb_spec 400 st), (Z.ltb_spec st 600); simpl;
    destruct (decide (400 <= st < 600)); try reflexivity; lia.
Qed.

(** The token exchange, once the credentials are there: one POST, then
    the outcome decides. *)
Lemma get_amadeus_access_token_configured (tr : list net_call) :
  truthy (AMADEUS_CLIENT_ID cfg) = true ->
  truthy (AMADEUS_CLIENT_SECRET cfg) = true ->
  get_amadeus_access_token cfg net tr
  = (tr ++ [Post (token_request cfg)],
     match on_post net (token_request cfg) with
     | NoResponse detail =>
         Raise (AmadeusError (ErrorGettingToken (ConnectionFailure detail)))
     | Response st b =>
         if decide (error_status st)
         then Raise (AmadeusError (ErrorGettingToken (HTTPError st)))
         else match b with
              | None => Raise (AmadeusError (ErrorGettingToken InvalidJSON))
              | Some payload =>
                  if truthy (access_token payload)
                  then Ret (get (access_token payload) "")
                  else Raise (AmadeusError NoAccessTokenInResponse)
              end
     end).
Proof.
  intros Hid Hsecret. unfold get_amadeus_access_token.
  rewrite Hid, Hsecret. simpl.
  unfold io_except, io_bind, requests_post, io_lift, received.
  destruct (on_post net (token_request cfg)) as [detail|st b]; [reflexivity|].
  rewrite error_status_test.
  destruct (decide (error_status st)); [reflexivity|].
  destruct b as [payload|]; simpl; [|reflexivity].
  destruct (truthy (access_token payload)); reflexivity.
Qed.

(** The credential provider raises nothing but [AmadeusError]. *)
Lemma get_amadeus_access_token_raises (tr tr' : list net_call) (e : exception) :
  get_amadeus_access_token cfg net tr = (tr', Raise e) ->
  exists msg, e = AmadeusError msg.
Proof.
  destruct (truthy (AMADEUS_CLIENT_ID cfg)) eqn:Hid;
    [destruct (truthy (AMADEUS_CLIENT_SECRET cfg)) eqn:Hsecret|].
  - rewrite get_amadeus_access_token_configured by assumption.
    destruct (on_post net (token_request cfg)) as [detail|st b].
    + intros [= _ <-]. eauto.
    + destruct (decide (error_status st)); [intros [= _ <-]; eauto|].
      destruct b as [payload|]; [|intros [= _ <-]; eauto].
      destruct (truthy (access_token payload)); [discriminate|].
      intros [= _ <-]. eauto.
  - unfold get_amadeus_access_token. rewrite Hid, Hsecret. simpl.
    intros [= _ <-]. eauto.
  - unfold get_amadeus_access_token. rewrite Hid. simpl.
    intros [= _ <-]. eauto.
Qed.

(** Without credentials the provider raises at once, and the trace is
    the one it was given. *)
Lemma credentials_not_set (tr : list net_call) :
  truthy (AMADEUS_CLIENT_ID cfg) = false
  \/ truthy (AMADEUS_CLIENT_SECRET cfg) = false ->
  get_amadeus_access_token cfg net tr = (tr, Raise (AmadeusError CredentialsNotSet)).
Proof.
  intros Hunset. unfold get_amadeus_access_token.
  destruct Hunset as [-> | ->]; [reflexivity|].
  now rewrite orb_true_r.
Qed.

(** A failure of the credential provider is the failure of the search. *)
Lemma search_flights_amadeus_token_failure
    (origin_city destination_city departure_date : string)
    (return_date : option string) (max_stops : Z)
    (tr tr1 : list net_call) (e : exception) :
  get_amadeus_access_token cfg net tr = (tr1, Raise e) ->
  search_flights_amadeus float_of_str cfg net origin_city destination_city
    departure_date return_date max_stops tr
  = (tr1, Raise e).
Proof. intros H. unfold search_flights_amadeus, io_bind at 1. now rewrite H. Qed.

(** C5: with the client identifier or the client secret not set, the
    credential provider raises its configuration error without a
    network call: the trace is unchanged, whatever the network does.
    The search, which starts with it, fails the same way. *)
Theorem get_amadeus_access_token_unconfigured (tr : list net_call) :
  truthy (AMADEUS_CLIENT_ID cfg) = false
  \/ truthy (AMADEUS_CLIENT_SECRET cfg) = false ->
  get_amadeus_access_token cfg net tr = (tr, Raise (AmadeusError CredentialsNotSet))
  /\ forall (origin_city destination_city departure_date : string)
       (return_date : option string) (max_stops : Z),
      search_flights_amadeus float_of_str cfg net origin_city destination_city
        departure_date return_date max_stops tr
      = (tr, Raise (AmadeusError CredentialsNotSet)).
Proof.
  intros Hunset. split; [now apply credentials_not_set|].
  intros. now apply search_flights_amadeus_token_failure, credentials_not_set.
Qed.

(** The search, once the token is there: one GET, then the outcome
    decides. *)
Lemma search_flights_amadeus_with_token
    (origin_city destination_city departure_date : string)
    (return_date : option string) (max_stops : Z)
    (tr tr1 : list net_call) (token : string) :
  get_amadeus_access_token cfg net tr = (tr1, Ret token) ->
  let req := search_request token origin_city destination_city
               departure_date return_date max_stops in
  search_flights_amadeus float_of_str cfg net origin_city destination_city
    departure_date return_date max_stops tr
  = (tr1 ++ [Get req],
     match on_get net req with
     | NoResponse detail =>
         Raise (AmadeusError (ErrorCallingSearch (ConnectionFailure detail)))
     | Response st b =>
         if decide (error_status st)
         then Raise (AmadeusError (ErrorCallingSearch (HTTPError st)))
         else match b with
              | None => Raise (RequestException InvalidJSON)
              | Some data =>
                  normalize float_of_str (get (payload_data data) []) max_stops
              end
     end).
Proof.
  intros Htoken req. unfold search_flights_amadeus, io_bind at 1.
  rewrite Htoken. fold req.
  unfold io_except, io_bind, requests_get, io_lift, io_ret, received.
  destruct (on_get net req) as [detail|st b]; [reflexivity|].
  rewrite error_status_test.
  destruct (decide (error_status st)); [reflexivity|].
  destruct b as [data|]; reflexivity.
Qed.

(** C7: when the provider answers the search with a success status and
    an empty [data] array, the search returns the empty list. *)
Theorem search_flights_amadeus_empty_data
    (origin_city destination_city departure_date : string)
    (return_date : option string) (max_stops : Z)
    (tr tr1 : list net_call) (token : string) (st : Z) (payload : search_payload) :
  get_amadeus_access_token cfg net tr = (tr1, Ret token) ->
  on_get net (search_request token origin_city destination_city
                departure_date return_date max_stops)
  = Response st (Some payload) ->
  200 <= st < 300 ->
  payload_data payload = Some [] ->
  search_flights_amadeus float_of_str cfg net origin_city destination_city
    departure_date return_date max_stops tr
  = (tr1 ++ [Get (search_request token origin_city destination_city
                    departure_date return_date max_stops)],
     Ret []).
Proof.
  intros Htoken Hget Hst Hdata.
  rewrite (search_flights_amadeus_with_token _ _ _ _ _ _ _ _ Htoken). cbv zeta.
  rewrite Hget.
  destruct (decide (error_status st)) as [Herr|_]; [unfold error_status in Herr; lia|].
  now rewrite Hdata.
Qed.

(** C10: each failure the pipeline detects, whatever its cause (missing
    credentials; a token exchange without response, with a 4xx or 5xx
    status, or with an object body without access token; an offer search
    without response or with a 4xx or 5xx status), is raised as an
    [AmadeusError]: the causes differ in the message only. *)
Theorem pipeline_failure_is_amadeus_error
    (origin_city destination_city departure_date : string)
    (return_date : option string) (max_stops : Z) (tr : list net_call) :
  pipeline_failure cfg net origin_city destination_city departure_date
    return_date max_stops tr ->
  exists (tr' : list net_call) (msg : amadeus_message),
    search_flights_amadeus float_of_str cfg net origin_city destination_city
      departure_date return_date max_stops tr
    = (tr', Raise (AmadeusError msg)).
Proof.
  intros [Hunset | detail Hid Hsecret Hpost | st b Hid Hsecret Hpost Hst
         | st payload Hid Hsecret Hpost Hst Hmissing
         | tr1 token detail Htoken Hget | tr1 token st b Htoken Hget Hst].
  - do 2 eexists. now apply search_flights_amadeus_token_failure, credentials_not_set.
  - do 2 eexists. apply search_flights_amadeus_token_failure.
    rewrite get_amadeus_access_token_configured, Hpost by assumption. reflexivity.
  - do 2 eexists. apply search_flights_amadeus_token_failure.
    rewrite get_amadeus_access_token_configured, Hpost by assumption.
    destruct (decide (error_status st)); [reflexivity|contradiction].
  - do 2 eexists. apply search_flights_amadeus_token_failure.
    rewrite get_amadeus_access_token_configured, Hpost by assumption.
    destruct (decide (error_status st)); [contradiction|].
    rewrite Hmissing. reflexivity.
  - rewrite (search_flights_amadeus_with_token _ _ _ _ _ _ _ _ Htoken). cbv zeta.
    rewrite Hget. eauto.
  - rewrite (search_flights_amadeus_with_token _ _ _ _ _ _ _ _ Htoken). cbv zeta.
    rewrite Hget.
    destruct (decide (error_status st)); [eauto|contradiction].
Qed.

End Client.

(** ** The query *)

Lemma nonempty_true_iff (s : string) : nonempty s = true <-> s <> EmptyString.
Proof. destruct s; simpl; split; congruence. Qed.

Lemma effective_return_date_iff (departure_date : string)
    (return_date : option string) (d : string) :
  effective_return_date departure_date return_date = Some d
  <-> return_date = Some d /\ d <> EmptyString /\ d <> departure_date.
Proof.
  unfold effective_return_date. destruct return_date as [d'|].
  - destruct (nonempty d') eqn:Hne; simpl.
    + apply nonempty_true_iff in Hne.
      destruct (String.eqb_spec d' departure_date) as [Heq|Hneq]; simpl.
      * split; [discriminate|]. intros ([= ->] & _ & Hd). contradiction.
      * split; [intros [= <-]; repeat split; assumption|]. now intros ([= ->] & _).
    + split; [discriminate|]. intros ([= ->] & Hd & _).
      apply nonempty_true_iff in Hd. congruence.
  - split; [discriminate|]. now intros ([=] & _).
Qed.

Ltac query_cases return_date departure_date max_stops :=
  unfold search_params, effective_return_date;
  destruct return_date as [d|];
  [destruct (nonempty d && negb (String.eqb d departure_date))|];
  destruct (Z.eqb_spec max_stops 0); simplify_map_eq; try reflexivity.

Section Query.

Variables origin_iata dest_iata departure_date : string.
Variable return_date : option string.
Variable max_stops : Z.

Lemma search_params_returnDate :
  search_params origin_iata dest_iata departure_date return_date max_stops
    !! "returnDate"
  = PStr <$> effective_return_date departure_date return_date.
Proof. query_cases return_date departure_date max_stops. Qed.

Lemma search_params_nonStop :
  search_params origin_iata dest_iata departure_date return_date max_stops
    !! "nonStop"
  = if max_stops =? 0 then Some (PStr "true") else None.
Proof.
  query_cases return_date departure_date max_stops;
    destruct (Z.eqb_spec max_stops 0); congruence.
Qed.

Lemma search_params_fixed :
  let params :=
    search_params origin_iata dest_iata departure_date return_date max_stops in
  params !! "adults" = Some (PInt 1)
  /\ params !! "currencyCode" = Some (PStr "AUD")
  /\ params !! "max" = Some (PInt 20).
Proof. repeat split; query_cases return_date departure_date max_stops. Qed.

End Query.

(** C6: the query of the search request carries [returnDate] exactly for
    a non-empty return date that differs from the departure date, and
    then with that date; [nonStop] exactly when [max_stops] is 0; and
    always [adults = 1], the currency ["AUD"] and [max = 20]. *)
Theorem search_request_params
    (access_token origin_city destination_city departure_date : string)
    (return_date : option string) (max_stops : Z) :
  let params :=
    get_params (search_request access_token origin_city destination_city
                  departure_date return_date max_stops) in
  (forall v : param_value,
      params !! "returnDate" = Some v
      <-> exists d, return_date = Some d /\ d <> EmptyString
                    /\ d <> departure_date /\ v = PStr d)
  /\ (return_date = None \/ return_date = Some departure_date ->
      params !! "returnDate" = None)
  /\ (params !! "nonStop" = Some (PStr "true") <-> max_stops = 0)
  /\ (params !! "nonStop" = None <-> max_stops <> 0)
  /\ params !! "adults" = Some (PInt 1)
  /\ params !! "currencyCode" = Some (PStr "AUD")
  /\ params !! "max" = Some (PInt 20).
Proof.
  cbv zeta. unfold search_request. cbn [get_params].
  rewrite search_params_returnDate, search_params_nonStop.
  split; [|split; [|split; [|split; [|apply search_params_fixed]]]].
  - intros v. split.
    + destruct (effective_return_date _ _) as [d|] eqn:Hd; [|discriminate].
      intros [= <-]. apply effective_return_date_iff in Hd as (Hret & Hne & Hneq).
      exists d. repeat split; assumption.
    + intros (d & Hd & Hne & Hneq & ->).
      now rewrite (proj2 (effective_return_date_iff _ _ d)).
  - intros [-> | ->]; [reflexivity|].
    unfold effective_return_date. now rewrite String.eqb_refl, andb_false_r.
  - destruct (Z.eqb_spec max_stops 0); split; congruence.
  - destruct (Z.eqb_spec max_stops 0); split; congruence.
Qed.

(** ** Runs of the pipeline on sample networks *)

Lemma get_amadeus_access_token_unconfigured_witness :
  get_amadeus_access_token unconfigured unreachable []
  = ([], Raise (AmadeusError CredentialsNotSet))
  /\ forall (origin_city destination_city departure_date : string)
       (return_date : option string) (max_stops : Z),
      search_flights_amadeus float_rejecting unconfigured unreachable
        origin_city destination_city departure_date return_date max_stops []
      = ([], Raise (AmadeusError CredentialsNotSet)).
Proof.
  apply (get_amadeus_access_token_unconfigured float_rejecting unconfigured unreachable []).
  right. reflexivity.
Defined.

Lemma search_flights_amadeus_empty_data_witness :
  search_flights_amadeus float_rejecting configured
    (answering 200 (Some {| payload_data := Some [] |}))
    "Sydney (SYD)" "Seoul (ICN)" "2025-12-03" (Some "2025-12-10") 0 []
  = ([Post (token_request configured)]
     ++ [Get (search_request "token" "Sydney (SYD)" "Seoul (ICN)" "2025-12-03"
                (Some "2025-12-10") 0)],
     Ret []).
Proof.
  apply (search_flights_amadeus_empty_data float_rejecting configured
           (answering 200 (Some {| payload_data := Some [] |}))
           "Sydney (SYD)" "Seoul (ICN)" "2025-12-03" (Some "2025-12-10") 0
           [] [Post (token_request configured)] "token" 200
           {| payload_data := Some [] |}).
  - reflexivity.
  - reflexivity.
  - lia.
  - reflexivity.
Defined.

Lemma pipeline_failure_is_amadeus_error_witness :
  exists (tr' : list net_call) (msg : amadeus_message),
    search_flights_amadeus float_rejecting configured (answering 503 None)
      "Sydney (SYD)" "Seoul (ICN)" "2025-12-03" None 1 []
    = (tr', Raise (AmadeusError msg)).
Proof.
  apply (pipeline_failure_is_amadeus_error float_rejecting configured (answering 503 None)).
  apply (SearchErrorStatus _ _ _ _ _ _ _ _ [Post (token_request configured)] "token" 503 None).
  - reflexivity.
  - reflexivity.
  - unfold error_status. lia.
Defined.

(** C10, as stated, fails: a status outside 2xx is a failure for the code
    only when it is a 4xx or a 5xx.  A search answered 304 with a body
    that is not JSON passes [raise_for_status], and the decoding error of
    [resp.json()], raised outside the [try] block, is what the pipeline
    raises: not an [AmadeusError]. *)
Lemma search_not_modified_raises_decoding_error :
  raise_for_status {| status_code := 304; body := @None search_payload |} = Ret tt
  /\ search_flights_amadeus float_rejecting configured (answering 304 None)
       "Sydney (SYD)" "Seoul (ICN)" "2025-12-03" None 1 []
     = ([Post (token_request configured);
         Get (search_request "token" "Sydney (SYD)" "Seoul (ICN)" "2025-12-03" None 1)],
        Raise (RequestException InvalidJSON)).
Proof. split; reflexivity. Qed.

(** The three kinds of failure on sample networks: the same exception,
    a different message. *)
Example failure_missing_credentials :
  snd (search_flights_amadeus float_rejecting unconfigured unreachable
         "SYD" "ICN" "2025-12-03" None 0 [])
  = Raise (AmadeusError CredentialsNotSet).
Proof. reflexivity. Qed.

Example failure_token_exchange :
  snd (search_flights_amadeus float_rejecting configured unreachable
         "SYD" "ICN" "2025-12-03" None 0 [])
  = Raise (AmadeusError (ErrorGettingToken (ConnectionFailure "connection refused"))).
Proof. reflexivity. Qed.

Example failure_offer_search :
  snd (search_flights_amadeus float_rejecting configured (answering 503 None)
         "SYD" "ICN" "2025-12-03" None 0 [])
  = Raise (AmadeusError (ErrorCallingSearch (HTTPError 503))).
Proof. reflexivity. Qed.

(** Outside the listed causes: [resp.json()] of the search is not under
    the [try], so a success status with a body that is not JSON raises
    the decoding error itself. *)
Example search_body_not_json :
  snd (search_flights_amadeus float_rejecting configured (answering 200 None)
         "SYD" "ICN" "2025-12-03" None 0 [])
  = Raise (RequestException InvalidJSON).
Proof. reflexivity. Qed.

(** A response without the [data] key is a response without offers. *)
Example search_without_data_key :
  snd (search_flights_amadeus float_rejecting configured
         (answering 200 (Some {| payload_data := None |}))
         "SYD" "ICN" "2025-12-03" None 0 [])
  = Ret [].
Proof. reflexivity. Qed.

(** The sample offers through the whole pipeline. *)
Example search_sample_offers :
  snd (search_flights_amadeus float_rejecting configured
         (answering 200 (Some {| payload_data := Some sample_offers |}))
         "SYD" "ICN" "2025-12-03" None 1 [])
  = Ret sample_records.
Proof. vm_compute. reflexivity. Qed.

(** * Further properties *)

(** ** Binary64: signs *)

Lemma shr_1_nonneg (mrs : shr_record) : 0 <= shr_m mrs -> 0 <= shr_m (shr_1 mrs).
Proof.
  destruct mrs as [m r s]. simpl. intros Hm.
  destruct m as [|p|p]; [simpl; lia | destruct p; simpl; lia | lia].
Qed.

Lemma iter_shr_1_nonneg (p : positive) (mrs : shr_record) :
  0 <= shr_m mrs -> 0 <= shr_m (SpecFloat.iter_pos shr_1 p mrs).
Proof.
  revert mrs. induction p as [p IH|p IH|]; intros mrs Hm; simpl.
  - apply IH, IH, shr_1_nonneg, Hm.
  - apply IH, IH, Hm.
  - apply shr_1_nonneg, Hm.
Qed.

Lemma shr_fexp_nonneg (m e : Z) (l : location) :
  0 <= m -> 0 <= shr_m (fst (shr_fexp prec emax m e l)).
Proof.
  intros Hm. unfold shr_fexp, shr.
  assert (Hrec : 0 <= shr_m (shr_record_of_loc m l)).
  { destruct l as [|[]]; exact Hm. }
  destruct (fexp prec emax (Zdigits2 m + e) - e); simpl; try exact Hrec.
  now apply iter_shr_1_nonneg.
Qed.

Lemma round_nearest_even_nonneg (m : Z) (l : location) :
  0 <= m -> 0 <= round_nearest_even m l.
Proof.
  intros Hm. destruct l as [|[]]; simpl; try lia.
  destruct (Z.even m); lia.
Qed.

(** Rounding a non-negative mantissa gives a non-negative float. *)
Lemma binary_round_aux_nonnegative (m e : Z) (l : location) :
  0 <= m -> nonnegative (binary_round_aux prec emax false m e l) = true.
Proof.
  intros Hm. unfold binary_round_aux.
  pose proof (shr_fexp_nonneg m e l Hm) as H1.
  destruct (shr_fexp prec emax m e l) as [mrs' e']. simpl in H1.
  pose proof (shr_fexp_nonneg _ e' loc_Exact
                (round_nearest_even_nonneg _ (loc_of_shr_record mrs') H1)) as H2.
  destruct (shr_fexp prec emax _ e' loc_Exact) as [mrs'' e'']. simpl in H2.
  destruct (shr_m mrs'') as [|p|p]; [reflexivity| |lia].
  now destruct (e'' <=? emax - prec).
Qed.

Lemma dyadic_nonnegative (m e : Z) : 0 <= m -> nonnegative (dyadic m e) = true.
Proof.
  intros Hm. unfold dyadic, binary_normalize.
  destruct m as [|p|p]; [reflexivity| |lia].
  unfold binary_round.
  destruct (shl_align p e _) as [mz ez].
  now apply binary_round_aux_nonnegative.
Qed.

Lemma float_of_int_nonnegative (n : Z) (f : float) :
  0 <= n -> float_of_int n = Ret f -> nonnegative f = true.
Proof.
  intros Hn. unfold float_of_int.
  pose proof (dyadic_nonnegative n 0 Hn) as Hd.
  destruct (dyadic n 0); try discriminate; now intros [= <-].
Qed.

Lemma float_of_ratio_nonnegative (num den : Z) :
  0 <= num -> 0 < den -> nonnegative (float_of_ratio false num den) = true.
Proof.
  intros Hnum Hden. unfold float_of_ratio, SFdiv_core_binary.
  set (s := 0 - 0 - _).
  set (m' := match s with Z.pos _ => Z.shiftl num s | 0 => num | Z.neg _ => 0 end).
  assert (Hm' : 0 <= m').
  { subst m'. destruct s; [exact Hnum | now apply Z.shiftl_nonneg | lia]. }
  pose proof (Z.div_pos m' den Hm' Hden) as Hdiv.
  unfold Z.div in Hdiv.
  destruct (Z.div_eucl m' den) as [q r].
  now apply binary_round_aux_nonnegative.
Qed.

Lemma fdiv_nonnegative (x y : float) :
  nonnegative x = true -> nonnegative y = true ->
  (forall s, y <> S754_zero s) -> (forall s, y <> S754_infinity s) ->
  nonnegative (fdiv x y) = true.
Proof.
  intros Hx Hy Hzero Hinf. unfold fdiv, SFdiv.
  destruct x as [[]|[]| |[] mx ex]; try discriminate;
    destruct y as [[]|[]| |[] my ey]; try discriminate; try reflexivity;
    try (exfalso; eapply Hzero; reflexivity);
    try (exfalso; eapply Hinf; reflexivity).
  simpl xorb.
  unfold SFdiv_core_binary.
  set (s := ex - ey - _).
  set (m' := match s with Z.pos _ => Z.shiftl (Z.pos mx) s | 0 => Z.pos mx | Z.neg _ => 0 end).
  assert (Hm' : 0 <= m').
  { subst m'. destruct s; [lia | apply Z.shiftl_nonneg; lia | lia]. }
  pose proof (Z.div_pos m' (Z.pos my) Hm' ltac:(lia)) as Hdiv.
  unfold Z.div in Hdiv.
  destruct (Z.div_eucl m' (Z.pos my)) as [q r].
  now apply binary_round_aux_nonnegative.
Qed.

Lemma fadd_nonnegative (x y : float) :
  nonnegative x = true -> nonnegative y = true -> nonnegative (fadd x y) = true.
Proof.
  intros Hx Hy. unfold fadd, SFadd.
  destruct x as [[]|[]| |[] mx ex]; try discriminate;
    destruct y as [[]|[]| |[] my ey]; try discriminate; try reflexivity.
  simpl cond_Zopp.
  apply (dyadic_nonnegative _ (Z.min ex ey)). lia.
Qed.

Lemma round_half_even_shift_nonneg (num k : Z) :
  0 <= num -> 0 <= round_half_even_shift num k.
Proof.
  intros Hnum. unfold round_half_even_shift.
  assert (Hq : 0 <= Z.shiftr num k) by now apply Z.shiftr_nonneg.
  destruct (2 * _ ?= _); [destruct (Z.even _)| |]; lia.
Qed.

Lemma py_round2_nonnegative (x : float) :
  nonnegative x = true -> nonnegative (py_round2 x) = true.
Proof.
  destruct x as [[]|[]| |[] m e]; try discriminate; try reflexivity.
  intros _. unfold py_round2.
  set (hundredths := if 0 <=? e then _ else _).
  assert (Hh : 0 <= hundredths).
  { subst hundredths. destruct (Z.leb_spec 0 e).
    - apply Z.mul_nonneg_nonneg; [lia | now apply Z.pow_nonneg].
    - apply round_half_even_shift_nonneg. lia. }
  destruct (hundredths =? 0); [reflexivity|].
  apply float_of_ratio_nonnegative; lia.
Qed.

(** ** [parse_duration_to_hours]: what the loop keeps and what it drops *)

Lemma int_of_digits_nonneg (acc : Z) (s : string) :
  0 <= acc -> string_forallb isdecimal s = true -> 0 <= int_of_digits acc s.
Proof.
  revert acc. induction s as [|ch s IH]; intros acc Hacc Hs; simpl in *; [exact Hacc|].
  apply andb_prop in Hs as [Hch Hs]. apply IH; [|exact Hs].
  unfold isdecimal in Hch. apply andb_prop in Hch as [Hlo _].
  apply Z.leb_le in Hlo. lia.
Qed.

Lemma py_int_nonneg (num : string) (z : Z) : py_int num = Ret z -> 0 <= z.
Proof.
  unfold py_int. destruct num as [|ch num]; [discriminate|].
  destruct (string_forallb isdecimal (String ch num)) eqn:Hdec; cbn [negb];
    [|discriminate].
  destruct (_ <? _)%nat; [discriminate|].
  intros [= <-]. change (0 <= int_of_digits 0 (String ch num)).
  apply int_of_digits_nonneg; [lia | exact Hdec].
Qed.

(** The two counters of the loop never become negative. *)
Lemma scan_duration_nonneg (current : string) (hours minutes : Z) (num : string)
    (h m : Z) :
  0 <= hours -> 0 <= minutes ->
  scan_duration current hours minutes num = Ret (h, m) -> 0 <= h /\ 0 <= m.
Proof.
  revert hours minutes num.
  induction current as [|ch rest IH]; intros hours minutes num Hh Hm; simpl.
  - intros [= <- <-]. now split.
  - destruct (isdigit ch); [now apply IH|].
    destruct (Ascii.eqb ch "H" && nonempty num).
    { destruct (py_int num) as [z|e] eqn:Hint; simpl; [|discriminate].
      apply IH; [now apply (py_int_nonneg num) | exact Hm]. }
    destruct (Ascii.eqb ch "M" && nonempty num).
    { destruct (py_int num) as [z|e] eqn:Hint; simpl; [|discriminate].
      apply IH; [exact Hh | now apply (py_int_nonneg num)]. }
    now apply IH.
Qed.

Lemma hours_value_nonnegative (hours minutes : Z) (v : float) :
  0 <= hours -> 0 <= minutes ->
  hours_value hours minutes = Ret v -> nonnegative v = true.
Proof.
  intros Hh Hm. unfold hours_value.
  destruct (float_of_int minutes) as [fm|e] eqn:Hfm; simpl; [|discriminate].
  destruct (float_of_int hours) as [fh|e] eqn:Hfh; simpl; [|discriminate].
  intros [= <-].
  apply py_round2_nonnegative, fadd_nonnegative.
  - now apply (float_of_int_nonnegative hours).
  - apply fdiv_nonnegative.
    + now apply (float_of_int_nonnegative minutes).
    + reflexivity.
    + intros s. vm_compute. discriminate.
    + intros s. vm_compute. discriminate.
Qed.

(** X1: A duration that is returned is a number that is not negative and not
    NaN: [+0.0], a positive value, or [+inf]. *)
Theorem parse_duration_nonnegative (duration : string) (v : float) :
  parse_duration_to_hours duration = Ret (Some v) -> nonnegative v = true.
Proof.
  unfold parse_duration_to_hours.
  destruct (negb (nonempty duration) || negb (String.prefix "PT" duration));
    [discriminate|].
  destruct (scan_duration _ 0 0 EmptyString) as [[h m]|e] eqn:Hscan; simpl;
    [|discriminate].
  destruct (hours_value h m) as [v'|e] eqn:Hv; simpl; [|discriminate].
  intros [= <-].
  destruct (scan_duration_nonneg _ 0 0 EmptyString h m ltac:(lia) ltac:(lia) Hscan).
  now apply (hours_value_nonnegative h m).
Qed.

Lemma parse_duration_nonnegative_witness :
  nonnegative (dyadic 21 (-1)) = true.
Proof.
  apply (parse_duration_nonnegative "PT10H30M"). vm_compute. reflexivity.
Defined.

(** X2: The three outcomes of the parser: it returns [None] exactly for the
    empty string and for a text that does not begin with ["PT"]; on any
    other text it returns a number or raises, and what it raises is the
    [ValueError] of [int()] or the [OverflowError] of the conversion to
    float. *)
Theorem parse_duration_outcome (duration : string) :
  (parse_duration_to_hours duration = Ret None
   <-> duration = EmptyString \/ String.prefix "PT" duration = false)
  /\ (forall e : exception,
        parse_duration_to_hours duration = Raise e ->
        String.prefix "PT" duration = true
        /\ (e = ValueError \/ e = OverflowError)).
Proof.
  split; [apply parse_duration_none_iff|].
  intros e Hraise. split; [|eapply parse_duration_raises; eauto].
  unfold parse_duration_to_hours in Hraise.
  destruct (String.prefix "PT" duration); [reflexivity|].
  rewrite orb_true_r in Hraise. discriminate.
Qed.

(** Without an [H] or an [M] the loop changes neither counter, whatever
    else it reads. *)
Lemma scan_duration_no_marker (tail : string) (hours minutes : Z) (num : string) :
  contains "H" tail = false -> contains "M" tail = false ->
  scan_duration tail hours minutes num = Ret (hours, minutes).
Proof.
  revert num. induction tail as [|ch tail IH]; intros num HH HM; simpl in *;
    [reflexivity|].
  apply orb_false_elim in HH as [HchH HH]. apply orb_false_elim in HM as [HchM HM].
  rewrite HchH, HchM. simpl.
  destruct (isdigit ch); now apply IH.
Qed.

(** What follows the last marker does not count. *)
Lemma scan_duration_tail_ignored (head tail : string) (hours minutes : Z) (num : string) :
  contains "H" tail = false -> contains "M" tail = false ->
  scan_duration (head +:+ tail) hours minutes num
  = scan_duration head hours minutes num.
Proof.
  intros HH HM. revert hours minutes num.
  induction head as [|ch head IH]; intros hours minutes num.
  - rewrite string_app_nil. now apply scan_duration_no_marker.
  - rewrite string_app_cons. simpl.
    destruct (isdigit ch); [apply IH|].
    destruct (Ascii.eqb ch "H" && nonempty num);
      [destruct (py_int num); simpl; [apply IH|reflexivity]|].
    destruct (Ascii.eqb ch "M" && nonempty num);
      [destruct (py_int num); simpl; [apply IH|reflexivity]|].
    apply IH.
Qed.

(** X3: Whatever follows the last [H] or [M] of a duration is ignored: a
    seconds component, stray digits, any other text.  With no [H] and no
    [M] at all the result is [0.0]. *)
Theorem parse_duration_tail_ignored (head tail : string) :
  contains "H" tail = false -> contains "M" tail = false ->
  parse_duration_to_hours ("PT" +:+ head +:+ tail)
  = parse_duration_to_hours ("PT" +:+ head)
  /\ parse_duration_to_hours ("PT" +:+ tail) = Ret (Some (S754_zero false)).
Proof.
  intros HH HM. split.
  - change ("PT" +:+ head +:+ tail) with (String "P" (String "T" (head +:+ tail))).
    change ("PT" +:+ head) with (String "P" (String "T" head)).
    now rewrite !parse_duration_marker, scan_duration_tail_ignored.
  - change ("PT" +:+ tail) with (String "P" (String "T" tail)).
    now rewrite parse_duration_marker, scan_duration_no_marker.
Qed.

Lemma parse_duration_tail_ignored_witness :
  parse_duration_to_hours ("PT" +:+ "2H15M" +:+ "40S")
  = parse_duration_to_hours ("PT" +:+ "2H15M")
  /\ parse_duration_to_hours ("PT" +:+ "40S") = Ret (Some (S754_zero false)).
Proof. apply (parse_duration_tail_ignored "2H15M" "40S"); reflexivity. Defined.

(** The scan of [{m}M{h}H]: the markers are read in any order. *)
Lemma scan_duration_minutes_hours (h m : string) :
  is_decimal_run h = true -> is_decimal_run m = true ->
  scan_duration (m +:+ "M" +:+ h +:+ "H") 0 0 EmptyString
  = Ret (int_of_digits 0 h, int_of_digits 0 m).
Proof.
  intros Hh Hm.
  rewrite scan_duration_digits by now apply is_decimal_run_digits.
  rewrite string_app_nil, string_app_cons, string_app_nil.
  rewrite scan_duration_minute_marker by exact Hm.
  rewrite scan_duration_digits by now apply is_decimal_run_digits.
  rewrite string_app_nil.
  now rewrite scan_duration_hour_marker by exact Hh.
Qed.

Lemma scan_duration_single (run : string) (marker : ascii) (hours minutes : Z) :
  is_decimal_run run = true ->
  scan_duration (run +:+ String marker EmptyString) hours minutes EmptyString
  = Ret (if Ascii.eqb marker "H" then (int_of_digits 0 run, minutes)
         else if Ascii.eqb marker "M" then (hours, int_of_digits 0 run)
         else (hours, minutes)).
Proof.
  intros Hrun.
  rewrite scan_duration_digits by now apply is_decimal_run_digits.
  rewrite string_app_nil. simpl.
  rewrite (is_decimal_run_nonempty _ Hrun), (py_int_decimal_run _ Hrun).
  destruct (isdigit marker) eqn:Hd.
  - assert (Ascii.eqb marker "H" = false /\ Ascii.eqb marker "M" = false) as [-> ->];
      [|reflexivity].
    split; apply Ascii.eqb_neq; intros ->; discriminate.
  - destruct (Ascii.eqb marker "H"); [reflexivity|].
    destruct (Ascii.eqb marker "M"); reflexivity.
Qed.

(** X4: A token may carry one component only, and the two in either order: a
    missing component counts as 0, and [PT{m}M{h}H] is read as
    [PT{h}H{m}M]. *)
Theorem parse_duration_components (h m : string) :
  is_decimal_run h = true -> is_decimal_run m = true ->
  parse_duration_to_hours ("PT" +:+ h +:+ "H")
  = (let* v := hours_value (int_of_digits 0 h) 0 in Ret (Some v))
  /\ parse_duration_to_hours ("PT" +:+ m +:+ "M")
     = (let* v := hours_value 0 (int_of_digits 0 m) in Ret (Some v))
  /\ parse_duration_to_hours ("PT" +:+ m +:+ "M" +:+ h +:+ "H")
     = parse_duration_to_hours ("PT" +:+ h +:+ "H" +:+ m +:+ "M").
Proof.
  intros Hh Hm. repeat split.
  - change ("PT" +:+ h +:+ "H") with (String "P" (String "T" (h +:+ "H"))).
    now rewrite parse_duration_marker, (scan_duration_single h "H" 0 0 Hh).
  - change ("PT" +:+ m +:+ "M") with (String "P" (String "T" (m +:+ "M"))).
    now rewrite parse_duration_marker, (scan_duration_single m "M" 0 0 Hm).
  - change ("PT" +:+ m +:+ "M" +:+ h +:+ "H")
      with (String "P" (String "T" (m +:+ "M" +:+ h +:+ "H"))).
    change ("PT" +:+ h +:+ "H" +:+ m +:+ "M")
      with (String "P" (String "T" (h +:+ "H" +:+ m +:+ "M"))).
    now rewrite !parse_duration_marker, scan_duration_minutes_hours,
      scan_duration_hours_minutes.
Qed.

Lemma parse_duration_components_witness :
  parse_duration_to_hours ("PT" +:+ "3" +:+ "H")
  = (let* v := hours_value (int_of_digits 0 "3") 0 in Ret (Some v))
  /\ parse_duration_to_hours ("PT" +:+ "45" +:+ "M")
     = (let* v := hours_value 0 (int_of_digits 0 "45") in Ret (Some v))
  /\ parse_duration_to_hours ("PT" +:+ "45" +:+ "M" +:+ "3" +:+ "H")
     = parse_duration_to_hours ("PT" +:+ "3" +:+ "H" +:+ "45" +:+ "M").
Proof. apply (parse_duration_components "3" "45"); reflexivity. Defined.

(** ** [extract_iata]: the code between the last parentheses *)

Lemma length_string_app (a b : string) :
  String.length (a +:+ b) = (String.length a + String.length b)%nat.
Proof.
  induction a as [|ch a IH]; [reflexivity|].
  rewrite string_app_cons. simpl. now rewrite IH.
Qed.

Lemma contains_app (ch : ascii) (a b : string) :
  contains ch (a +:+ b) = contains ch a || contains ch b.
Proof.
  induction a as [|c a IH]; [reflexivity|].
  rewrite string_app_cons. simpl. now rewrite IH, orb_assoc.
Qed.

Lemma rfind_from_absent (i found : Z) (ch : ascii) (s : string) :
  contains ch s = false -> rfind_from i found ch s = found.
Proof.
  revert i found. induction s as [|c s IH]; intros i found Hs; simpl in *; [reflexivity|].
  apply orb_false_elim in Hs as [-> Hs]. now apply IH.
Qed.

Lemma rfind_from_app (i found : Z) (ch : ascii) (a b : string) :
  rfind_from i found ch (a +:+ b)
  = rfind_from (i + Z.of_nat (String.length a)) (rfind_from i found ch a) ch b.
Proof.
  revert i found. induction a as [|c a IH]; intros i found.
  - rewrite string_app_nil. simpl. now rewrite Z.add_0_r.
  - rewrite string_app_cons. simpl rfind_from. rewrite IH.
    f_equal. simpl String.length. lia.
Qed.

(** The last occurrence: [ch] at the end of [a], and not after it. *)
Lemma rfind_last (ch : ascii) (a b : string) :
  contains ch b = false ->
  rfind ch (a +:+ String ch b) = Z.of_nat (String.length a).
Proof.
  intros Hb. unfold rfind. rewrite rfind_from_app. simpl.
  rewrite Ascii.eqb_refl. now apply rfind_from_absent.
Qed.

Lemma string_drop_app (a b : string) : string_drop (String.length a) (a +:+ b) = b.
Proof.
  induction a as [|c a IH]; [now destruct b|].
  rewrite string_app_cons. exact IH.
Qed.

Lemma string_take_app (a b : string) : string_take (String.length a) (a +:+ b) = a.
Proof.
  induction a as [|c a IH]; [now destruct b|].
  rewrite string_app_cons. simpl. now rewrite IH.
Qed.

(** [s[len(a) : len(a) + len(b)]] *)
Lemma slice_middle (a b c : string) :
  slice (a +:+ b +:+ c) (Z.of_nat (String.length a))
    (Z.of_nat (String.length a + String.length b))
  = b.
Proof.
  unfold slice, slice_index. rewrite !length_string_app.
  destruct (Z.ltb_spec (Z.of_nat (String.length a)) 0); [lia|].
  destruct (Z.ltb_spec (Z.of_nat (String.length a + String.length b)) 0); [lia|].
  replace (Z.to_nat (Z.min _ (Z.max 0 (Z.of_nat (String.length a)))))
    with (String.length a) by lia.
  replace (Z.to_nat (Z.min _ (Z.max 0 (Z.of_nat (String.length a + String.length b)))))
    with (String.length a + String.length b)%nat by lia.
  rewrite string_drop_app.
  replace (String.length a + String.length b - String.length a)%nat
    with (String.length b) by lia.
  apply string_take_app.
Qed.

Lemma lstrip_app_nonspace (a : string) (ch : ascii) (b : string) :
  isspace ch = false -> lstrip (a +:+ String ch b) = lstrip a +:+ String ch b.
Proof.
  intros Hch. induction a as [|c a IH].
  - rewrite !string_app_nil. simpl. now rewrite Hch.
  - rewrite string_app_cons. simpl. destruct (isspace c); [exact IH|].
    now rewrite string_app_cons.
Qed.

Lemma rstrip_app_nonspace (a : string) (ch : ascii) (b : string) :
  isspace ch = false -> rstrip (a +:+ String ch b) = a +:+ String ch (rstrip b).
Proof.
  intros Hch. induction a as [|c a IH].
  - rewrite !string_app_nil. simpl. destruct (rstrip b); [now rewrite Hch|reflexivity].
  - rewrite !string_app_cons. simpl. rewrite IH.
    now destruct a.
Qed.

Lemma contains_rstrip (ch : ascii) (s : string) :
  contains ch s = false -> contains ch (rstrip s) = false.
Proof.
  induction s as [|c s IH]; [reflexivity|]. simpl. intros Hs.
  apply orb_false_elim in Hs as [Hc Hs]. specialize (IH Hs).
  destruct (rstrip s); [destruct (isspace c)|]; simpl in *; now rewrite ?Hc, ?IH.
Qed.

Lemma string_app_cons_assoc (a : string) (ch : ascii) (b c : string) :
  a +:+ String ch (b +:+ c) = (a +:+ String ch b) +:+ c.
Proof. now rewrite string_app_assoc, string_app_cons. Qed.

(** The text [extract_iata] works on, for an input with a parenthesised
    part. *)
Lemma strip_parenthesised (before inner after : string) :
  strip (before +:+ String "(" (inner +:+ String ")" after))
  = lstrip before +:+ String "(" (inner +:+ String ")" (rstrip after)).
Proof.
  unfold strip. rewrite lstrip_app_nonspace by reflexivity.
  rewrite !string_app_cons_assoc.
  now rewrite rstrip_app_nonspace by reflexivity.
Qed.

(** X5: With a parenthesised part and no parenthesis inside or after it,
    [extract_iata] returns that part, stripped and upper-cased, when it
    has three characters, whatever comes before; otherwise the first
    three characters of the whole text. *)
Theorem extract_iata_last_parentheses (before inner after : string) :
  string_forallb is_ascii (before +:+ "(" +:+ inner +:+ ")" +:+ after) = true ->
  contains "(" inner = false -> contains ")" inner = false ->
  contains "(" after = false -> contains ")" after = false ->
  extract_iata (before +:+ "(" +:+ inner +:+ ")" +:+ after)
  = if (String.length (strip inner) =? 3)%nat then upper (strip inner)
    else string_take 3 (upper (strip (before +:+ "(" +:+ inner +:+ ")" +:+ after))).
Proof.
  intros _ Hopen_in Hclose_in Hopen_after Hclose_after.
  change (before +:+ "(" +:+ inner +:+ ")" +:+ after)
    with (before +:+ String "(" (inner +:+ String ")" after)).
  unfold extract_iata. rewrite strip_idempotent, strip_parenthesised.
  set (lead := lstrip before). set (trail := rstrip after).
  assert (Htrail_open : contains "(" trail = false) by now apply contains_rstrip.
  assert (Htrail_close : contains ")" trail = false) by now apply contains_rstrip.
  assert (Hhas_open : contains "(" (lead +:+ String "(" (inner +:+ String ")" trail)) = true).
  { rewrite contains_app. simpl. now rewrite orb_true_r. }
  assert (Hhas_close : contains ")" (lead +:+ String "(" (inner +:+ String ")" trail)) = true).
  { rewrite contains_app. simpl. rewrite contains_app. simpl. now rewrite !orb_true_r. }
  rewrite Hhas_open, Hhas_close. simpl andb.
  assert (Hstart : rfind "(" (lead +:+ String "(" (inner +:+ String ")" trail))
                   = Z.of_nat (String.length lead)).
  { apply rfind_last. rewrite contains_app. simpl. now rewrite Hopen_in, Htrail_open. }
  assert (Hstop : rfind ")" (lead +:+ String "(" (inner +:+ String ")" trail))
                  = Z.of_nat (String.length (lead +:+ "(") + String.length inner)).
  { rewrite string_app_cons_assoc, rfind_last by exact Htrail_close.
    rewrite !length_string_app. simpl String.length. lia. }
  assert (Hslice : slice (lead +:+ String "(" (inner +:+ String ")" trail))
                     (rfind "(" (lead +:+ String "(" (inner +:+ String ")" trail)) + 1)
                     (rfind ")" (lead +:+ String "(" (inner +:+ String ")" trail)))
                   = inner).
  { rewrite Hstart, Hstop.
    replace (Z.of_nat (String.length lead) + 1)
      with (Z.of_nat (String.length (lead +:+ "("))) by (rewrite length_string_app; simpl; lia).
    replace (lead +:+ String "(" (inner +:+ String ")" trail))
      with ((lead +:+ "(") +:+ inner +:+ String ")" trail)
      by now rewrite string_app_assoc.
    apply slice_middle. }
  now rewrite Hslice.
Qed.

Lemma extract_iata_last_parentheses_witness :
  extract_iata ("  Seoul / Incheon " +:+ "(" +:+ " icn " +:+ ")" +:+ ", Korea ")
  = if (String.length (strip " icn ") =? 3)%nat then upper (strip " icn ")
    else string_take 3
           (upper (strip ("  Seoul / Incheon " +:+ "(" +:+ " icn " +:+ ")" +:+ ", Korea "))).
Proof.
  apply (extract_iata_last_parentheses "  Seoul / Incheon " " icn " ", Korea ");
    reflexivity.
Defined.

Example extract_iata_inner_spaces : extract_iata "  Seoul / Incheon ( icn ), Korea " = "ICN".
Proof. vm_compute. reflexivity. Qed.

(** A parenthesised part that is not a three-character code is not
    used: the first three characters of the text are. *)
Example extract_iata_two_codes : extract_iata "Gold Coast (OOL/BNE)" = "GOL".
Proof. vm_compute. reflexivity. Qed.

(** ** The normalisation loop: what is kept, what is dropped, what aborts *)

Section Records.

Variable float_of_str : string -> result float.

(** One iteration in terms of the outbound leg. *)
Lemma normalize_offer_outbound (max_stops : Z) (offer : RawOffer) :
  normalize_offer float_of_str max_stops offer
  = match outbound_segments offer with
    | [] => Ret None
    | first_seg :: others =>
        let* duration_hours := parse_duration_to_hours (outbound_duration offer) in
        let stops := Z.of_nat (length others) in
        if (max_stops =? 0) && (0 <? stops) then Ret None
        else if (max_stops =? 1) && (1 <? stops) then Ret None
        else
          let* total :=
            match grandTotal (get (price offer) empty_price) with
            | Some s => float_of_str s
            | None => Ret (S754_zero false)
            end in
          Ret (Some {| fo_airline :=
                         match get (validatingAirlineCodes offer) [] with
                         | a :: _ => a
                         | [] => get (carrierCode first_seg) "N/A"
                         end;
                       fo_origin :=
                         get (iataCode (get (departure first_seg) empty_endpoint)) "";
                       fo_destination :=
                         get (iataCode (get (arrival (List.last others first_seg))
                                          empty_endpoint)) "";
                       fo_departure_time :=
                         get (at_time (get (departure first_seg) empty_endpoint)) "";
                       fo_arrival_time :=
                         get (at_time (get (arrival (List.last others first_seg))
                                         empty_endpoint)) "";
                       fo_stops := stops;
                       fo_price := total;
                       fo_currency := get (currency (get (price offer) empty_price)) "AUD";
                       fo_duration_hours := duration_hours |})
    end.
Proof.
  unfold normalize_offer, outbound_segments, outbound_duration, first_itinerary.
  destruct (get (itineraries offer) []) as [|itinerary rest]; [reflexivity|].
  destruct (get (segments itinerary) []) as [|first_seg others]; [reflexivity|].
  replace (Z.max (Z.of_nat (length (first_seg :: others)) - 1) 0)
    with (Z.of_nat (length others)) by (simpl length; lia).
  destruct others; reflexivity.
Qed.

(** X6: The record of a retained offer describes the outbound leg: its stops
    are the segments less one (the [max] never applies), its origin and
    destination those of the first and the last segment; and the
    iteration does not depend on any other itinerary. *)
Theorem normalize_offer_outbound_leg (max_stops : Z) (offer : RawOffer) :
  (forall record : FlightOffer,
      normalize_offer float_of_str max_stops offer = Ret (Some record) ->
      exists first_seg others,
        outbound_segments offer = first_seg :: others
        /\ fo_stops record = Z.of_nat (length (outbound_segments offer)) - 1
        /\ 0 <= fo_stops record
        /\ fo_origin record
           = get (iataCode (get (departure first_seg) empty_endpoint)) ""
        /\ fo_destination record
           = get (iataCode (get (arrival (List.last others first_seg)) empty_endpoint)) ""
        /\ parse_duration_to_hours (outbound_duration offer)
           = Ret (fo_duration_hours record))
  /\ forall other : RawOffer,
      first_itinerary other = first_itinerary offer ->
      price other = price offer ->
      validatingAirlineCodes other = validatingAirlineCodes offer ->
      normalize_offer float_of_str max_stops other
      = normalize_offer float_of_str max_stops offer.
Proof.
  split.
  - intros record. rewrite normalize_offer_outbound.
    destruct (outbound_segments offer) as [|first_seg others]; [discriminate|].
    destruct (parse_duration_to_hours _) as [duration_hours|e]; cbn [bind];
      [|discriminate].
    destruct ((max_stops =? 0) && _); [discriminate|].
    destruct ((max_stops =? 1) && _); [discriminate|].
    destruct (match grandTotal _ with Some s => float_of_str s | None => _ end);
      cbn [bind]; [|discriminate].
    intros [= <-]. exists first_seg, others. cbn [fo_stops fo_origin fo_destination
                                                  fo_duration_hours].
    repeat split; try reflexivity; simpl length; lia.
  - intros other Hfirst Hprice Hcodes.
    rewrite !normalize_offer_outbound.
    unfold outbound_segments, outbound_duration. now rewrite Hfirst, Hprice, Hcodes.
Qed.

(** X7: An offer is dropped exactly when its outbound leg has no segment, or
    when its duration parses and its leg has more segments than
    [max_stops] allows: two or more for 0, three or more for 1.  No other
    value of [max_stops] filters by stops. *)
Theorem normalize_offer_dropped (max_stops : Z) (offer : RawOffer) :
  normalize_offer float_of_str max_stops offer = Ret None
  <-> outbound_segments offer = []
      \/ ((exists d, parse_duration_to_hours (outbound_duration offer) = Ret d)
          /\ ((max_stops = 0 /\ (2 <= length (outbound_segments offer))%nat)
              \/ (max_stops = 1 /\ (3 <= length (outbound_segments offer))%nat))).
Proof.
  rewrite normalize_offer_outbound.
  destruct (outbound_segments offer) as [|first_seg others].
  { split; [now left | reflexivity]. }
  destruct (parse_duration_to_hours _) as [duration_hours|e]; cbn [bind].
  2:{ split; [discriminate|]. intros [[=] | [[d [=]] _]]. }
  simpl length.
  destruct (Z.eqb_spec max_stops 0) as [H0|H0];
    destruct (Z.ltb_spec 0 (Z.of_nat (length others))) as [Hs0|Hs0]; cbn [andb];
    try (split; [intros _; right; split; [eauto|left; split; [assumption|lia]]
                |reflexivity]);
    destruct (Z.eqb_spec max_stops 1) as [H1|H1];
    destruct (Z.ltb_spec 1 (Z.of_nat (length others))) as [Hs1|Hs1]; cbn [andb];
    try (split; [intros _; right; split; [eauto|right; split; [assumption|lia]]
                |reflexivity]);
    (destruct (match grandTotal _ with Some s => float_of_str s | None => _ end);
     cbn [bind];
     (split; [discriminate|]; intros [[=] | [_ [[? ?] | [? ?]]]]; lia)).
Qed.

(** X8: The loop returns exactly when every iteration returns, and then with
    the records of the retained offers in order; it raises exactly when
    some iteration raises, and then the exception of the first one that
    does: no record of the offers before it is returned. *)
Theorem normalize_all_or_nothing (offers : list RawOffer) (max_stops : Z) :
  (forall out : list FlightOffer,
      normalize float_of_str offers max_stops = Ret out
      <-> exists steps : list (option FlightOffer),
            Forall2 (fun offer step =>
                       normalize_offer float_of_str max_stops offer = Ret step)
              offers steps
            /\ out = omap id steps)
  /\ (forall e : exception,
      normalize float_of_str offers max_stops = Raise e
      <-> exists before offer after,
            offers = before ++ offer :: after
            /\ Forall (fun o => exists step,
                          normalize_offer float_of_str max_stops o = Ret step) before
            /\ normalize_offer float_of_str max_stops offer = Raise e).
Proof.
  induction offers as [|offer rest [IHret IHraise]].
  - split.
    + intros out. split.
      * intros [= <-]. exists []. split; constructor.
      * intros (steps & Hsteps & ->). now inversion Hsteps.
    + intros e. split; [discriminate|].
      intros (before & o & after & Heq & _). now destruct before.
  - split.
    + intros out. rewrite normalize_cons. split.
      * destruct (normalize_offer float_of_str max_stops offer) as [step|e] eqn:Hstep;
          cbn [bind]; [|discriminate].
        destruct (normalize float_of_str rest max_stops) as [records|e] eqn:Hrest;
          cbn [bind]; [|discriminate].
        intros [= <-].
        destruct (proj1 (IHret records) eq_refl) as (steps & Hsteps & ->).
        exists (step :: steps). split; [now constructor|].
        now destruct step.
      * intros (steps & Hsteps & ->).
        inversion Hsteps as [|o step rest' steps' Hstep Hrest]; subst.
        rewrite Hstep. cbn [bind].
        rewrite (proj2 (IHret (omap id steps'))) by eauto. cbn [bind].
        now destruct step.
    + intros e. rewrite normalize_cons. split.
      * destruct (normalize_offer float_of_str max_stops offer) as [step|e'] eqn:Hstep;
          cbn [bind].
        -- destruct (normalize float_of_str rest max_stops) as [records|e'] eqn:Hrest;
             cbn [bind]; [discriminate|].
           intros [= ->].
           destruct (proj1 (IHraise e) eq_refl) as (before & o & after & -> & Hbefore & Ho).
           exists (offer :: before), o, after. repeat split; eauto.
        -- intros [= ->]. exists [], offer, rest. repeat split; eauto.
      * intros (before & o & after & Heq & Hbefore & Ho).
        destruct before as [|b before]; simpl in Heq; injection Heq as <- ->.
        -- now rewrite Ho.
        -- inversion Hbefore as [|? ? [step Hstep] Hbefore']; subst.
           rewrite Hstep. cbn [bind].
           rewrite (proj2 (IHraise e)) by (exists before, o, after; eauto).
           reflexivity.
Qed.

(** X9: Allowing one stop only adds offers: when the loop returns for both
    limits, the records for [max_stops = 0] are a sublist of those for
    [max_stops = 1]. *)
Theorem normalize_widening (offers : list RawOffer) (direct one_stop : list FlightOffer) :
  normalize float_of_str offers 0 = Ret direct ->
  normalize float_of_str offers 1 = Ret one_stop ->
  direct `sublist_of` one_stop.
Proof.
  revert direct one_stop.
  induction offers as [|offer rest IH]; intros direct one_stop H0 H1.
  - injection H0 as <-. apply sublist_nil_l.
  - apply normalize_cons_inv in H0 as (s0 & r0 & Hs0 & Hr0 & ->).
    apply normalize_cons_inv in H1 as (s1 & r1 & Hs1 & Hr1 & ->).
    specialize (IH r0 r1 Hr0 Hr1).
    destruct s0 as [record|]; [|destruct s1; [now apply sublist_cons|exact IH]].
    assert (Hsame : s1 = Some record).
    { rewrite normalize_offer_outbound in Hs0, Hs1.
      destruct (outbound_segments offer) as [|first_seg others]; [discriminate|].
      destruct (parse_duration_to_hours _) as [duration_hours|e]; cbn [bind] in *;
        [|discriminate].
      change (0 =? 0) with true in Hs0. change (0 =? 1) with false in Hs0.
      change (1 =? 0) with false in Hs1. change (1 =? 1) with true in Hs1.
      cbn [andb] in *.
      destruct (Z.ltb_spec 0 (Z.of_nat (length others))); [discriminate|].
      destruct (Z.ltb_spec 1 (Z.of_nat (length others))); [lia|].
      congruence. }
    subst s1. now apply sublist_skip.
Qed.

End Records.

Lemma normalize_offer_outbound_leg_witness :
  exists first_seg others,
    outbound_segments one_stop_offer = first_seg :: others
    /\ 1 = Z.of_nat (length (outbound_segments one_stop_offer)) - 1
    /\ 0 <= 1
    /\ "SYD" = get (iataCode (get (departure first_seg) empty_endpoint)) ""
    /\ "ICN" = get (iataCode (get (arrival (List.last others first_seg)) empty_endpoint)) ""
    /\ parse_duration_to_hours (outbound_duration one_stop_offer)
       = Ret (Some (dyadic 21 (-1))).
Proof.
  exact (proj1 (normalize_offer_outbound_leg float_rejecting 1 one_stop_offer) _ eq_refl).
Defined.

Lemma normalize_widening_witness : sample_direct_records `sublist_of` sample_records.
Proof.
  apply (normalize_widening float_rejecting sample_offers); vm_compute; reflexivity.
Defined.

Example sample_direct_records_stops : map fo_stops sample_direct_records = [0].
Proof. vm_compute. reflexivity. Qed.

(** ** The credential provider and the search client: calls and exceptions *)

Section Calls.

Variable float_of_str : string -> result float.
Variable cfg : Config.
Variable net : Network.

Lemma truthy_get (v : option string) :
  truthy v = true -> v = Some (get v "") /\ get v "" <> EmptyString.
Proof.
  destruct v as [s|]; [|discriminate]. simpl. intros Hs.
  split; [reflexivity|]. now apply nonempty_true_iff.
Qed.

Lemma get_amadeus_access_token_returns (tr tr' : list net_call) (token : string) :
  get_amadeus_access_token cfg net tr = (tr', Ret token) ->
  tr' = tr ++ [Post (token_request cfg)]
  /\ token <> EmptyString
  /\ exists st, ~ error_status st
                /\ on_post net (token_request cfg)
                   = Response st (Some {| access_token := Some token |}).
Proof.
  destruct (truthy (AMADEUS_CLIENT_ID cfg)) eqn:Hid;
    [destruct (truthy (AMADEUS_CLIENT_SECRET cfg)) eqn:Hsecret|].
  - rewrite get_amadeus_access_token_configured by assumption.
    destruct (on_post net (token_request cfg)) as [detail|st b]; [discriminate|].
    destruct (decide (error_status st)) as [Hst|Hst]; [discriminate|].
    destruct b as [[field]|]; [|discriminate].
    cbn [access_token].
    destruct (truthy field) eqn:Hfield; [|discriminate]. intros [= <- <-].
    destruct (truthy_get field Hfield) as [Heq Hne].
    split; [reflexivity|]. split; [exact Hne|].
    exists st. split; [exact Hst|]. now rewrite <- Heq.
  - rewrite credentials_not_set by now right. discriminate.
  - rewrite credentials_not_set by now left. discriminate.
Qed.

Lemma get_amadeus_access_token_fails (tr tr' : list net_call) (e : exception) :
  get_amadeus_access_token cfg net tr = (tr', Raise e) ->
  (exists msg, e = AmadeusError msg)
  /\ (tr' = tr \/ tr' = tr ++ [Post (token_request cfg)]).
Proof.
  intros Hraise. split; [eapply get_amadeus_access_token_raises; eauto|].
  revert Hraise.
  destruct (truthy (AMADEUS_CLIENT_ID cfg)) eqn:Hid;
    [destruct (truthy (AMADEUS_CLIENT_SECRET cfg)) eqn:Hsecret|].
  - rewrite get_amadeus_access_token_configured by assumption.
    intros [= <- _]. now right.
  - rewrite credentials_not_set by now right. intros [= <- _]. now left.
  - rewrite credentials_not_set by now left. intros [= <- _]. now left.
Qed.

(** X10: For a token body on the schema (not JSON, or an object whose
    [access_token], when present, is a string), the credential provider
    makes at most one call, the POST of the token exchange.  A token it
    returns is the non-empty [access_token] of a response without error
    status; whatever it raises is an [AmadeusError]. *)
Theorem get_amadeus_access_token_outcome (tr tr' : list net_call) (r : result string) :
  get_amadeus_access_token cfg net tr = (tr', r) ->
  match r with
  | Ret token =>
      tr' = tr ++ [Post (token_request cfg)]
      /\ token <> EmptyString
      /\ exists st, ~ error_status st
                    /\ on_post net (token_request cfg)
                       = Response st (Some {| access_token := Some token |})
  | Raise e =>
      (exists msg, e = AmadeusError msg)
      /\ (tr' = tr \/ tr' = tr ++ [Post (token_request cfg)])
  end.
Proof.
  destruct r as [token|e];
    [apply get_amadeus_access_token_returns | apply get_amadeus_access_token_fails].
Qed.

(** X11: For a token body on the schema (not JSON, or an object whose
    [access_token], when present, is a string), the search makes at most
    two calls, in this order: the POST of the token exchange, then the
    GET of the offers.  The GET is only made with a token, the one the
    POST returned, in its [Authorization] header; when it is not made the
    search has raised an [AmadeusError]. *)
Theorem search_flights_amadeus_calls
    (origin_city destination_city departure_date : string)
    (return_date : option string) (max_stops : Z)
    (tr tr' : list net_call) (r : result (list FlightOffer)) :
  search_flights_amadeus float_of_str cfg net origin_city destination_city
    departure_date return_date max_stops tr = (tr', r) ->
  ((tr' = tr \/ tr' = tr ++ [Post (token_request cfg)])
   /\ exists msg, r = Raise (AmadeusError msg))
  \/ exists (token : string) (st : Z),
       token <> EmptyString
       /\ on_post net (token_request cfg)
          = Response st (Some {| access_token := Some token |})
       /\ tr' = tr ++ [Post (token_request cfg);
                       Get (search_request token origin_city destination_city
                              departure_date return_date max_stops)]
       /\ get_headers (search_request token origin_city destination_city
                         departure_date return_date max_stops) !! "Authorization"
          = Some ("Bearer " +:+ token).
Proof.
  destruct (get_amadeus_access_token cfg net tr) as [tr1 [token|e]] eqn:Htoken.
  - rewrite (search_flights_amadeus_with_token _ _ _ _ _ _ _ _ _ _ _ Htoken). cbv zeta.
    destruct (get_amadeus_access_token_returns _ _ _ Htoken) as (-> & Hne & st & _ & Hpost).
    intros [= <- <-]. right. exists token, st.
    split; [exact Hne|]. split; [exact Hpost|]. split; [now rewrite <- app_assoc|].
    unfold search_request. cbn [get_headers]. now rewrite lookup_insert_eq.
  - rewrite (search_flights_amadeus_token_failure _ _ _ _ _ _ _ _ _ _ _ Htoken).
    destruct (get_amadeus_access_token_fails _ _ _ Htoken) as ((msg & ->) & Htr).
    intros [= <- <-]. left. eauto.
Qed.

(** An exception of the loop is the exception of one of its iterations. *)
Lemma normalize_raises_offer (offers : list RawOffer) (max_stops : Z) (e : exception) :
  normalize float_of_str offers max_stops = Raise e ->
  exists offer, offer ∈ offers /\ normalize_offer float_of_str max_stops offer = Raise e.
Proof.
  induction offers as [|offer rest IH]; [discriminate|].
  rewrite normalize_cons.
  destruct (normalize_offer float_of_str max_stops offer) as [step|e'] eqn:Hstep;
    cbn [bind].
  - destruct (normalize float_of_str rest max_stops) as [records|e']; cbn [bind];
      [discriminate|].
    intros [= ->]. destruct (IH eq_refl) as (o & Hin & Ho).
    exists o. split; [now right | exact Ho].
  - intros [= ->]. exists offer. split; [now left | exact Hstep].
Qed.

(** One iteration raises only what the duration parser and [float()]
    raise. *)
Lemma normalize_offer_raises (max_stops : Z) (offer : RawOffer) (e : exception) :
  (forall s e', float_of_str s = Raise e' -> e' = ValueError) ->
  normalize_offer float_of_str max_stops offer = Raise e ->
  e = ValueError \/ e = OverflowError.
Proof.
  intros Hfloat. rewrite normalize_offer_outbound.
  destruct (outbound_segments offer) as [|first_seg others]; [discriminate|].
  destruct (parse_duration_to_hours _) as [duration_hours|e'] eqn:Hparse; cbn [bind].
  - destruct ((max_stops =? 0) && _); [discriminate|].
    destruct ((max_stops =? 1) && _); [discriminate|].
    destruct (grandTotal _) as [s|]; [|discriminate].
    destruct (float_of_str s) as [total|e'] eqn:Hs; cbn [bind]; [discriminate|].
    intros [= <-]. left. eapply Hfloat, Hs.
  - intros [= <-]. eapply parse_duration_raises, Hparse.
Qed.

(** X12: What can escape the search on responses that are on the schema
    (bodies that are not JSON included), when [float()] of a string
    raises nothing but [ValueError]: an [AmadeusError], the decoding
    error of a search body that is not JSON, and the [ValueError] and
    [OverflowError] of the normalisation. *)
Theorem search_flights_amadeus_raises
    (origin_city destination_city departure_date : string)
    (return_date : option string) (max_stops : Z)
    (tr tr' : list net_call) (e : exception) :
  (forall s e', float_of_str s = Raise e' -> e' = ValueError) ->
  search_flights_amadeus float_of_str cfg net origin_city destination_city
    departure_date return_date max_stops tr = (tr', Raise e) ->
  (exists msg, e = AmadeusError msg)
  \/ e = RequestException InvalidJSON
  \/ e = ValueError
  \/ e = OverflowError.
Proof.
  intros Hfloat.
  destruct (get_amadeus_access_token cfg net tr) as [tr1 [token|e1]] eqn:Htoken.
  - rewrite (search_flights_amadeus_with_token _ _ _ _ _ _ _ _ _ _ _ Htoken). cbv zeta.
    destruct (on_get net _) as [detail|st b]; [intros [= _ <-]; eauto|].
    destruct (decide (error_status st)); [intros [= _ <-]; eauto|].
    destruct b as [data|]; [|intros [= _ <-]; eauto].
    intros [= _ Hnorm]. right. right.
    apply normalize_raises_offer in Hnorm as (offer & _ & Hoffer).
    eapply normalize_offer_raises; eauto.
  - rewrite (search_flights_amadeus_token_failure _ _ _ _ _ _ _ _ _ _ _ Htoken).
    intros [= _ <-]. left. eapply get_amadeus_access_token_raises; eauto.
Qed.

End Calls.

Lemma get_amadeus_access_token_outcome_witness :
  [Post (token_request configured)] = [] ++ [Post (token_request configured)]
  /\ "token" <> EmptyString
  /\ exists st, ~ error_status st
                /\ on_post (answering 200 None) (token_request configured)
                   = Response st (Some {| access_token := Some "token" |}).
Proof.
  apply (get_amadeus_access_token_outcome configured (answering 200 None)
           [] [Post (token_request configured)] (Ret "token")).
  reflexivity.
Defined.

Lemma search_flights_amadeus_raises_witness :
  (exists msg, RequestException InvalidJSON = AmadeusError msg)
  \/ RequestException InvalidJSON = RequestException InvalidJSON
  \/ RequestException InvalidJSON = ValueError
  \/ RequestException InvalidJSON = OverflowError.
Proof.
  apply (search_flights_amadeus_raises float_rejecting configured (answering 200 None)
           "SYD" "ICN" "2025-12-03" None 0 []
           [Post (token_request configured);
            Get (search_request "token" "SYD" "ICN" "2025-12-03" None 0)]).
  - intros s e'. unfold float_rejecting. now intros [= <-].
  - reflexivity.
Defined.

Lemma search_flights_amadeus_calls_witness :
  exists (token : string) (st : Z),
    token <> EmptyString
    /\ on_post offering (token_request configured)
       = Response st (Some {| access_token := Some token |})
    /\ [Post (token_request configured);
        Get (search_request "token" "Sydney (SYD)" "Seoul (ICN)"
               "2025-12-03" (Some "2025-12-10") 1)]
       = [] ++ [Post (token_request configured);
                Get (search_request token "Sydney (SYD)" "Seoul (ICN)"
                       "2025-12-03" (Some "2025-12-10") 1)]
    /\ get_headers (search_request token "Sydney (SYD)" "Seoul (ICN)"
                      "2025-12-03" (Some "2025-12-10") 1) !! "Authorization"
       = Some ("Bearer " +:+ token).
Proof.
  destruct (search_flights_amadeus_calls float_rejecting configured offering
              "Sydney (SYD)" "Seoul (ICN)" "2025-12-03" (Some "2025-12-10") 1 []
              [Post (token_request configured);
               Get (search_request "token" "Sydney (SYD)" "Seoul (ICN)"
                      "2025-12-03" (Some "2025-12-10") 1)]
              (Ret sample_records))
    as [(_ & msg & Hraised) | Hcalls].
  - vm_compute. reflexivity.
  - discriminate.
  - exact Hcalls.
Defined.

(** ** [call_llm] *)

Section Model.

Variable describe : request_exception -> string.
Variable llm : generate_request -> http_outcome generate_payload.

Lemma prefix_app (a b : string) : String.prefix a (a +:+ b) = true.
Proof.
  induction a as [|ch a IH]; [apply prefix_empty|].
  rewrite string_app_cons. simpl.
  destruct (Ascii.ascii_dec ch ch); [exact IH | congruence].
Qed.

Lemma error_marker_prefix (detail : string) :
  String.prefix "ERROR calling Ollama" ("ERROR calling Ollama: " +:+ detail) = true.
Proof.
  change ("ERROR calling Ollama: " +:+ detail)
    with ("ERROR calling Ollama" +:+ String ":" (String " " detail)).
  apply prefix_app.
Qed.

(** What [call_llm] returns, by the outcome of its request. *)
Lemma call_llm_cases (prompt : string) :
  call_llm describe llm prompt
  = Ret match llm (llm_request prompt) with
        | NoResponse detail =>
            "ERROR calling Ollama: " +:+ describe (ConnectionFailure detail)
        | Response st b =>
            if decide (error_status st)
            then "ERROR calling Ollama: " +:+ describe (HTTPError st)
            else match b with
                 | None => "ERROR calling Ollama: " +:+ describe InvalidJSON
                 | Some data => strip (get (response_field data) "")
                 end
        end.
Proof.
  unfold call_llm, received.
  destruct (llm (llm_request prompt)) as [detail|st b]; [reflexivity|].
  cbn [bind]. rewrite error_status_test.
  destruct (decide (error_status st)); [reflexivity|].
  destruct b; reflexivity.
Qed.

(** X13: [call_llm] never raises: it returns the stripped [response] of a
    reply (the empty string without that key), and for a request that
    fails (no response, an error status, a body that is not JSON) a text
    that begins with ["ERROR calling Ollama"], the marker [main] tests. *)
Theorem call_llm_outcome (prompt : string) :
  exists text : string,
    call_llm describe llm prompt = Ret text
    /\ match llm (llm_request prompt) with
       | NoResponse _ => String.prefix "ERROR calling Ollama" text = true
       | Response st b =>
           if decide (error_status st)
           then String.prefix "ERROR calling Ollama" text = true
           else match b with
                | None => String.prefix "ERROR calling Ollama" text = true
                | Some data => text = strip (get (response_field data) "")
                end
       end.
Proof.
  rewrite call_llm_cases. eexists. split; [reflexivity|].
  destruct (llm (llm_request prompt)) as [detail|st b]; [apply error_marker_prefix|].
  destruct (decide (error_status st)); [apply error_marker_prefix|].
  destruct b; [reflexivity | apply error_marker_prefix].
Qed.

End Model.

(** ** [main] *)

Lemma extract_iata_blank (code_or_city : string) :
  strip code_or_city = EmptyString -> extract_iata code_or_city = EmptyString.
Proof.
  intros Hblank.
  destruct (extract_iata_cases code_or_city) as [(iata & _ & Hlen & _) | ->].
  - cbv zeta in Hlen. rewrite Hblank in Hlen. simpl in Hlen. lia.
  - now rewrite Hblank.
Qed.

Lemma search_params_departureDate
    (origin_iata dest_iata departure_date : string)
    (return_date : option string) (max_stops : Z) :
  let params :=
    search_params origin_iata dest_iata departure_date return_date max_stops in
  params !! "originLocationCode" = Some (PStr origin_iata)
  /\ params !! "destinationLocationCode" = Some (PStr dest_iata)
  /\ params !! "departureDate" = Some (PStr departure_date).
Proof. repeat split; query_cases return_date departure_date max_stops. Qed.

Section Flow.

Variable float_of_str : string -> result float.
Variable cfg : Config.
Variable net : Network.

(** A property of every retained record is a property of the output. *)
Lemma normalize_Forall (P : FlightOffer -> Prop) (offers : list RawOffer)
    (max_stops : Z) (out : list FlightOffer) :
  (forall offer record,
      normalize_offer float_of_str max_stops offer = Ret (Some record) -> P record) ->
  normalize float_of_str offers max_stops = Ret out -> Forall P out.
Proof.
  intros HP. revert out. induction offers as [|offer rest IH]; intros out Hout.
  - injection Hout as <-. constructor.
  - apply normalize_cons_inv in Hout as (step & records & Hstep & Hrest & ->).
    destruct step as [record|]; [constructor; eauto|eauto].
Qed.

(** What a search that returns has done. *)
Lemma search_flights_amadeus_returns
    (origin_city destination_city departure_date : string)
    (return_date : option string) (max_stops : Z)
    (tr tr' : list net_call) (flights : list FlightOffer) :
  search_flights_amadeus float_of_str cfg net origin_city destination_city
    departure_date return_date max_stops tr = (tr', Ret flights) ->
  exists (token : string) (data : search_payload),
    tr' = tr ++ [Post (token_request cfg);
                 Get (search_request token origin_city destination_city
                        departure_date return_date max_stops)]
    /\ normalize float_of_str (get (payload_data data) []) max_stops = Ret flights.
Proof.
  destruct (get_amadeus_access_token cfg net tr) as [tr1 [token|e]] eqn:Htoken.
  - rewrite (search_flights_amadeus_with_token _ _ _ _ _ _ _ _ _ _ _ Htoken). cbv zeta.
    destruct (get_amadeus_access_token_returns _ _ _ _ _ Htoken) as (-> & _).
    destruct (on_get net _) as [detail|st b]; [discriminate|].
    destruct (decide (error_status st)); [discriminate|].
    destruct b as [data|]; [|discriminate].
    intros [= <- Hnorm]. exists token, data. split; [now rewrite <- app_assoc|exact Hnorm].
  - rewrite (search_flights_amadeus_token_failure _ _ _ _ _ _ _ _ _ _ _ Htoken).
    discriminate.
Qed.

(** Every GET of a search is its search request, for some token. *)
Lemma search_flights_amadeus_get
    (origin_city destination_city departure_date : string)
    (return_date : option string) (max_stops : Z)
    (tr' : list net_call) (r : result (list FlightOffer)) (req : get_request) :
  search_flights_amadeus float_of_str cfg net origin_city destination_city
    departure_date return_date max_stops [] = (tr', r) ->
  Get req ∈ tr' ->
  exists token, req = search_request token origin_city destination_city
                        departure_date return_date max_stops.
Proof.
  destruct (get_amadeus_access_token cfg net []) as [tr1 [token|e]] eqn:Htoken.
  - rewrite (search_flights_amadeus_with_token _ _ _ _ _ _ _ _ _ _ _ Htoken). cbv zeta.
    destruct (get_amadeus_access_token_returns _ _ _ _ _ Htoken) as (-> & _).
    intros [= <- _] Hin. exists token.
    cbn [app] in Hin.
    apply elem_of_cons in Hin as [[=]|Hin].
    apply elem_of_cons in Hin as [[= ->]|Hin]; [reflexivity|].
    now apply elem_of_nil in Hin.
  - rewrite (search_flights_amadeus_token_failure _ _ _ _ _ _ _ _ _ _ _ Htoken).
    destruct (get_amadeus_access_token_fails _ _ _ _ _ Htoken) as (_ & [-> | ->]);
      intros [= <- _] Hin.
    + now apply elem_of_nil in Hin.
    + cbn [app] in Hin. apply elem_of_cons in Hin as [[=]|Hin].
      now apply elem_of_nil in Hin.
Qed.

(** An exception of the search that is not an [AmadeusError] comes after
    both calls: from a search body that is not JSON, or from one
    iteration of the loop. *)
Lemma search_flights_amadeus_uncaught
    (origin_city destination_city departure_date : string)
    (return_date : option string) (max_stops : Z)
    (tr tr' : list net_call) (e : exception) :
  search_flights_amadeus float_of_str cfg net origin_city destination_city
    departure_date return_date max_stops tr = (tr', Raise e) ->
  (forall msg, e <> AmadeusError msg) ->
  exists token,
    tr' = tr ++ [Post (token_request cfg);
                 Get (search_request token origin_city destination_city
                        departure_date return_date max_stops)]
    /\ (e = RequestException InvalidJSON
        \/ exists offer, normalize_offer float_of_str max_stops offer = Raise e).
Proof.
  destruct (get_amadeus_access_token cfg net tr) as [tr1 [token|e1]] eqn:Htoken.
  - rewrite (search_flights_amadeus_with_token _ _ _ _ _ _ _ _ _ _ _ Htoken). cbv zeta.
    destruct (get_amadeus_access_token_returns _ _ _ _ _ Htoken) as (-> & _).
    destruct (on_get net _) as [detail|st b];
      [intros [= _ <-] Hne; now edestruct Hne|].
    destruct (decide (error_status st));
      [intros [= _ <-] Hne; now edestruct Hne|].
    destruct b as [data|]; intros [= <- Hraise] _; exists token;
      (split; [now rewrite <- app_assoc|]).
    + right. apply normalize_raises_offer in Hraise as (offer & _ & Hoffer). eauto.
    + left. now rewrite Hraise.
  - rewrite (search_flights_amadeus_token_failure _ _ _ _ _ _ _ _ _ _ _ Htoken).
    destruct (get_amadeus_access_token_fails _ _ _ _ _ Htoken) as ((msg & ->) & _).
    intros [= _ <-] Hne. now destruct (Hne msg).
Qed.

End Flow.

Section Script.

Variable describe : request_exception -> string.
Variable llm : generate_request -> http_outcome generate_payload.
Variable D : Type.
Variable isoformat : D -> string.
Variable today : D.
Variable float_of_str : string -> result float.
Variable cfg : Config.
Variable net : Network.
Variable build_prompt :
  string -> string -> string -> string -> Z -> list FlightOffer -> string.

Local Abbreviation script :=
  (main describe llm D isoformat today float_of_str cfg net build_prompt).

Local Abbreviation search w :=
  (search_flights_amadeus float_of_str cfg net (origin_input w) (destination_input w)
     (isoformat (fst (travel_dates today (date_range w))))
     (Some (isoformat (snd (travel_dates today (date_range w)))))
     (if String.eqb (flight_option w) "Direct only" then 0 else 1) []).

Ltac run_main w :=
  unfold main;
  destruct (travel_dates today (date_range w)) as [start_date_obj end_date_obj] eqn:Hdates;
  cbn [fst snd] in *;
  destruct (search_button w) eqn:Hbutton; cbn [negb];
  [destruct (nonempty (origin_input w)) eqn:Horigin;
   destruct (nonempty (destination_input w)) eqn:Hdest; cbn [negb orb]|].

(** X14: The script calls nobody unless the button is pressed with both
    places filled in: otherwise it makes no call to the provider nor to
    the model, and ends normally. *)
Theorem main_without_search (w : widgets D) :
  search_button w = false
  \/ origin_input w = EmptyString \/ destination_input w = EmptyString ->
  amadeus_calls (script w) = []
  /\ llm_calls (script w) = []
  /\ outcome (script w) = Ret tt.
Proof.
  intros Hidle. run_main w; try now repeat split.
  destruct Hidle as [Hidle | [Hidle | Hidle]]; [discriminate| |];
    rewrite Hidle in *; discriminate.
Qed.

Ltac flatten_shown := cbn [shown]; unfold page_header; cbn [app].

Ltac not_shown :=
  let Hin := fresh "Hin" in
  intros Hin;
  repeat (apply elem_of_cons in Hin as [Hin|Hin]; [discriminate|]);
  now apply elem_of_nil in Hin.

Ltac not_shown_in Hin :=
  repeat (apply elem_of_cons in Hin as [Hin|Hin]; [discriminate|]);
  now apply elem_of_nil in Hin.

Ltac is_shown := repeat first [apply list_elem_of_here | apply list_elem_of_further].

Lemma main_idle (w : widgets D) :
  search_button w = false
  \/ nonempty (origin_input w) = false \/ nonempty (destination_input w) = false ->
  amadeus_calls (script w) = []
  /\ llm_calls (script w) = []
  /\ outcome (script w) = Ret tt
  /\ forall flights, st_dataframe flights ∉ shown (script w).
Proof.
  intros Hidle. run_main w;
    try (destruct Hidle as [Hidle | [Hidle | Hidle]]; discriminate);
    (do 3 (split; [reflexivity|]); intros flights; flatten_shown; not_shown).
Qed.

(** With the button pressed and both places filled in, the run is the
    search and what follows from its result. *)
Lemma main_searches (w : widgets D) :
  search_button w = true ->
  nonempty (origin_input w) = true -> nonempty (destination_input w) = true ->
  amadeus_calls (script w) = fst (search w)
  /\ match snd (search w) with
     | Raise (AmadeusError msg) =>
         outcome (script w) = Ret tt /\ llm_calls (script w) = []
         /\ (forall flights, st_dataframe flights ∉ shown (script w))
         /\ st_error_exception msg ∈ shown (script w)
     | Raise e =>
         outcome (script w) = Raise e /\ llm_calls (script w) = []
         /\ forall flights, st_dataframe flights ∉ shown (script w)
     | Ret [] =>
         outcome (script w) = Ret tt /\ llm_calls (script w) = []
         /\ forall flights, st_dataframe flights ∉ shown (script w)
     | Ret flights =>
         let prompt :=
           build_prompt (origin_input w) (destination_input w)
             (isoformat (fst (travel_dates today (date_range w))))
             (isoformat (snd (travel_dates today (date_range w))))
             (if String.eqb (flight_option w) "Direct only" then 0 else 1)
             flights in
         outcome (script w) = Ret tt
         /\ llm_calls (script w) = [llm_request prompt]
         /\ (forall shown_flights,
                st_dataframe shown_flights ∈ shown (script w) <-> shown_flights = flights)
         /\ exists text,
              call_llm describe llm prompt = Ret text
              /\ if String.prefix "ERROR calling Ollama" text
                 then st_error text ∈ shown (script w)
                      /\ st_markdown "### LLM Recommendation" ∉ shown (script w)
                 else st_markdown "### LLM Recommendation" ∈ shown (script w)
                      /\ st_markdown text ∈ shown (script w)
     end.
Proof.
  intros Hpressed Horigin' Hdest'. run_main w; try congruence.
  destruct (search_flights_amadeus _ _ _ _ _ _ _ _ _) as [calls [[|flight flights]|e]];
    cbn [fst snd].
  - do 3 (split; [reflexivity|]). intros shown_flights. flatten_shown. not_shown.
  - cbv zeta. rewrite call_llm_cases. do 3 (split; [reflexivity|]).
    split.
    + intros shown_flights. flatten_shown. split.
      * intros Hin.
        do 6 (apply elem_of_cons in Hin as [Hin|Hin]; [discriminate|]).
        apply elem_of_cons in Hin as [[= ->]|Hin]; [reflexivity|].
        destruct (String.prefix _ _); cbn [app] in Hin; not_shown_in Hin.
      * intros ->. is_shown.
    + eexists. split; [reflexivity|]. flatten_shown.
      destruct (String.prefix _ _); cbn [app]; split; try is_shown. not_shown.
  - destruct e; do 3 (split; [reflexivity|]);
      try (intros shown_flights; flatten_shown; not_shown).
    split; [intros shown_flights; flatten_shown; not_shown|]. flatten_shown. is_shown.
Qed.

(** Every GET of a run was made with the button pressed and both places
    filled in, and is the search request of the widgets' values. *)
Lemma main_get (w : widgets D) (req : get_request) :
  Get req ∈ amadeus_calls (script w) ->
  search_button w = true
  /\ nonempty (origin_input w) = true /\ nonempty (destination_input w) = true
  /\ exists token,
       req = search_request token (origin_input w) (destination_input w)
               (isoformat (fst (travel_dates today (date_range w))))
               (Some (isoformat (snd (travel_dates today (date_range w)))))
               (if String.eqb (flight_option w) "Direct only" then 0 else 1).
Proof.
  intros Hin.
  destruct (search_button w) eqn:Hbutton;
    [destruct (nonempty (origin_input w)) eqn:Horigin;
     [destruct (nonempty (destination_input w)) eqn:Hdest|]|].
  - destruct (main_searches w Hbutton Horigin Hdest) as [Hcalls _].
    rewrite Hcalls in Hin. do 3 (split; [reflexivity|]).
    eapply search_flights_amadeus_get; [apply surjective_pairing | exact Hin].
  - destruct (main_idle w) as [Hcalls _]; [now right; right|].
    rewrite Hcalls in Hin. now apply elem_of_nil in Hin.
  - destruct (main_idle w) as [Hcalls _]; [now right; left|].
    rewrite Hcalls in Hin. now apply elem_of_nil in Hin.
  - destruct (main_idle w) as [Hcalls _]; [now left|].
    rewrite Hcalls in Hin. now apply elem_of_nil in Hin.
Qed.

(** X15: The query the script sends is made of the widgets' values: a GET is
    only sent with the button pressed and both places filled in, its
    location codes are the codes resolved from the two text inputs, its
    departure date is the first travel date, and it asks for non-stop
    offers exactly when the flight option is "Direct only". *)
Theorem main_request_query (w : widgets D) (req : get_request) :
  Get req ∈ amadeus_calls (script w) ->
  search_button w = true
  /\ origin_input w <> EmptyString /\ destination_input w <> EmptyString
  /\ get_params req !! "originLocationCode"
     = Some (PStr (extract_iata (origin_input w)))
  /\ get_params req !! "destinationLocationCode"
     = Some (PStr (extract_iata (destination_input w)))
  /\ get_params req !! "departureDate"
     = Some (PStr (isoformat (fst (travel_dates today (date_range w)))))
  /\ get_params req !! "nonStop"
     = if String.eqb (flight_option w) "Direct only" then Some (PStr "true") else None.
Proof.
  intros Hin. apply main_get in Hin as (Hbutton & Horigin & Hdest & token & ->).
  split; [exact Hbutton|].
  split; [now apply nonempty_true_iff|]. split; [now apply nonempty_true_iff|].
  unfold search_request. cbn [get_params].
  pose proof (search_params_departureDate (extract_iata (origin_input w))
                (extract_iata (destination_input w))
                (isoformat (fst (travel_dates today (date_range w))))
                (Some (isoformat (snd (travel_dates today (date_range w)))))
                (if String.eqb (flight_option w) "Direct only" then 0 else 1))
    as (Ho & Hd & Hdep).
  split; [exact Ho|]. split; [exact Hd|]. split; [exact Hdep|].
  rewrite search_params_nonStop. now destruct (String.eqb (flight_option w) "Direct only").
Qed.

(** X16: The search is a return trip only for a range of two dates whose ISO
    texts differ: for a single date, and for a sequence of any other
    length, the query has no [returnDate]. *)
Theorem main_return_date (w : widgets D) (req : get_request) :
  Get req ∈ amadeus_calls (script w) ->
  get_params req !! "returnDate"
  = match date_range w with
    | DateSequence [start_date_obj; end_date_obj] =>
        if nonempty (isoformat end_date_obj)
           && negb (String.eqb (isoformat end_date_obj) (isoformat start_date_obj))
        then Some (PStr (isoformat end_date_obj)) else None
    | _ => None
    end.
Proof.
  intros Hin. apply main_get in Hin as (_ & _ & _ & token & ->).
  unfold search_request. cbn [get_params]. rewrite search_params_returnDate.
  assert (Hsame : forall d, PStr <$> effective_return_date (isoformat d) (Some (isoformat d))
                            = None).
  { intros d. unfold effective_return_date.
    now rewrite String.eqb_refl, andb_false_r. }
  destruct (date_range w) as [[|a [|b [|c rest]]]|d]; cbn [travel_dates fst snd];
    try apply Hsame.
  unfold effective_return_date. now destruct (_ && _).
Qed.

(** X17: A place that is only white space passes the emptiness test of the
    script: once a token is granted, the search is sent with the empty
    string as its location code. *)
Theorem main_blank_place_searched (w : widgets D) (tr1 : list net_call) (token : string) :
  search_button w = true ->
  origin_input w <> EmptyString -> destination_input w <> EmptyString ->
  strip (origin_input w) = EmptyString ->
  get_amadeus_access_token cfg net [] = (tr1, Ret token) ->
  exists req,
    amadeus_calls (script w) = [Post (token_request cfg); Get req]
    /\ get_params req !! "originLocationCode" = Some (PStr EmptyString).
Proof.
  intros Hbutton Horigin Hdest Hblank Htoken.
  apply nonempty_true_iff in Horigin, Hdest.
  destruct (main_searches w Hbutton Horigin Hdest) as [Hcalls _].
  rewrite Hcalls.
  rewrite (search_flights_amadeus_with_token _ _ _ _ _ _ _ _ _ _ _ Htoken). cbv zeta.
  destruct (get_amadeus_access_token_returns _ _ _ _ _ Htoken) as (-> & _).
  cbn [fst app]. eexists. split; [reflexivity|].
  unfold search_request. cbn [get_params].
  rewrite (extract_iata_blank _ Hblank).
  apply search_params_departureDate.
Qed.

(** X18: The table of offers is only displayed with at least one offer, and
    every offer in it respects the flight option: no stop for "Direct
    only", at most one stop otherwise. *)
Theorem main_dataframe (w : widgets D) (flights : list FlightOffer) :
  st_dataframe flights ∈ shown (script w) ->
  flights <> []
  /\ Forall (fun record =>
               0 <= fo_stops record
               <= if String.eqb (flight_option w) "Direct only" then 0 else 1)
            flights.
Proof.
  run_main w; try (flatten_shown; intros Hin; not_shown_in Hin).
  destruct (search_flights_amadeus _ _ _ _ _ _ _ _ _)
    as [calls [[|flight others]|e]] eqn:Hsearch.
  - flatten_shown. intros Hin. not_shown_in Hin.
  - rewrite call_llm_cases. flatten_shown. intros Hin.
    do 6 (apply elem_of_cons in Hin as [Hin|Hin]; [discriminate|]).
    apply elem_of_cons in Hin as [[= ->]|Hin];
      [|destruct (String.prefix _ _); cbn [app] in Hin; not_shown_in Hin].
    split; [discriminate|].
    apply search_flights_amadeus_returns in Hsearch as (token & data & _ & Hnorm).
    eapply normalize_Forall; [|exact Hnorm].
    intros offer record Hrecord.
    apply normalize_offer_stops in Hrecord as (Hlow & Hdirect & Hone).
    destruct (String.eqb (flight_option w) "Direct only");
      [rewrite Hdirect by reflexivity; lia | specialize (Hone eq_refl); lia].
  - destruct e; flatten_shown; intros Hin; not_shown_in Hin.
Qed.

(** X19: The model is asked at most once per run, and only about offers that
    are on display: either it is not called and no table is shown, or
    the run shows one table of offers, calls the model once with the
    prompt built from the widgets' values and these offers, and, the
    reply of the model being on the schema (not JSON, or an object whose
    [response], when present, is a string), ends normally. *)
Theorem main_llm_calls (w : widgets D) :
  (llm_calls (script w) = []
   /\ forall flights, st_dataframe flights ∉ shown (script w))
  \/ exists flights,
       st_dataframe flights ∈ shown (script w)
       /\ llm_calls (script w)
          = [llm_request
               (build_prompt (origin_input w) (destination_input w)
                  (isoformat (fst (travel_dates today (date_range w))))
                  (isoformat (snd (travel_dates today (date_range w))))
                  (if String.eqb (flight_option w) "Direct only" then 0 else 1)
                  flights)]
       /\ outcome (script w) = Ret tt.
Proof.
  destruct (search_button w) eqn:Hbutton;
    [destruct (nonempty (origin_input w)) eqn:Horigin;
     [destruct (nonempty (destination_input w)) eqn:Hdest|]|].
  - destruct (main_searches w Hbutton Horigin Hdest) as [_ Hrun].
    destruct (snd (search w)) as [[|flight others]|e].
    + left. now destruct Hrun as (_ & Hllm & Hshown).
    + right. cbv zeta in Hrun. destruct Hrun as (Hout & Hllm & Hshown & _).
      exists (flight :: others). split; [now apply Hshown|]. now split.
    + left. destruct e; now destruct Hrun as (_ & Hllm & Hshown).
  - left. destruct (main_idle w) as (_ & Hllm & _ & Hshown); [now right; right|]. now split.
  - left. destruct (main_idle w) as (_ & Hllm & _ & Hshown); [now right; left|]. now split.
  - left. destruct (main_idle w) as (_ & Hllm & _ & Hshown); [now left|]. now split.
Qed.

(** X20: No [AmadeusError] escapes the script.  On responses of the
    provider and of the model that are on the schema (bodies that are
    not JSON included), and when [float()] of a string raises nothing
    but [ValueError], an exception that ends the run is the decoding
    error of a search body that is not JSON, or the [ValueError] or
    [OverflowError] of the normalisation; it comes after both calls to
    the provider, before any table is shown or the model is called. *)
Theorem main_uncaught (w : widgets D) (e : exception) :
  (forall s e', float_of_str s = Raise e' -> e' = ValueError) ->
  outcome (script w) = Raise e ->
  (e = RequestException InvalidJSON \/ e = ValueError \/ e = OverflowError)
  /\ (exists token,
        amadeus_calls (script w)
        = [Post (token_request cfg);
           Get (search_request token (origin_input w) (destination_input w)
                  (isoformat (fst (travel_dates today (date_range w))))
                  (Some (isoformat (snd (travel_dates today (date_range w)))))
                  (if String.eqb (flight_option w) "Direct only" then 0 else 1))])
  /\ llm_calls (script w) = []
  /\ forall flights, st_dataframe flights ∉ shown (script w).
Proof.
  intros Hfloat. run_main w; try discriminate.
  destruct (search_flights_amadeus _ _ _ _ _ _ _ _ _)
    as [calls [[|flight others]|e0]] eqn:Hsearch;
    [discriminate | rewrite call_llm_cases; discriminate |].
  assert (Hcause : (forall msg, e0 <> AmadeusError msg) ->
                   (e0 = RequestException InvalidJSON \/ e0 = ValueError
                    \/ e0 = OverflowError)
                   /\ exists token,
                        calls = [Post (token_request cfg);
                                 Get (search_request token (origin_input w)
                                        (destination_input w)
                                        (isoformat start_date_obj)
                                        (Some (isoformat end_date_obj))
                                        (if String.eqb (flight_option w) "Direct only"
                                         then 0 else 1))]).
  { intros Hne.
    destruct (search_flights_amadeus_uncaught _ _ _ _ _ _ _ _ _ _ _ Hsearch Hne)
      as (token & -> & Hcause).
    split; [|now exists token].
    destruct Hcause as [->|(offer & Hoffer)]; [now left|right].
    eapply normalize_offer_raises; eauto. }
  destruct e0 as [msg|e0| |]; [discriminate|..];
    (destruct Hcause as (He & Hcalls); [discriminate|]);
    cbn [outcome amadeus_calls llm_calls]; intros [= <-];
    (split; [exact He|]); (split; [exact Hcalls|]); (split; [reflexivity|]);
    intros flights; flatten_shown; not_shown.
Qed.

(** X21: The heading of the recommendation is displayed exactly when the
    search found offers and the model's endpoint answered, without error
    status, a JSON body whose stripped [response] does not begin with
    the marker of [call_llm]'s error texts. *)
Theorem main_recommendation (w : widgets D) :
  st_markdown "### LLM Recommendation" ∈ shown (script w)
  <-> exists flights st data,
        st_dataframe flights ∈ shown (script w)
        /\ llm (llm_request
                  (build_prompt (origin_input w) (destination_input w)
                     (isoformat (fst (travel_dates today (date_range w))))
                     (isoformat (snd (travel_dates today (date_range w))))
                     (if String.eqb (flight_option w) "Direct only" then 0 else 1)
                     flights))
           = Response st (Some data)
        /\ ~ error_status st
        /\ String.prefix "ERROR calling Ollama" (strip (get (response_field data) ""))
           = false.
Proof.
  run_main w;
    try (split; [flatten_shown; intros Hin; not_shown_in Hin
                |intros (flights & st & data & Hin & _); revert Hin;
                 flatten_shown; intros Hin; not_shown_in Hin]).
  destruct (search_flights_amadeus _ _ _ _ _ _ _ _ _)
    as [calls [[|flight others]|e]] eqn:Hsearch.
  - split; [flatten_shown; intros Hin; not_shown_in Hin|].
    intros (flights & st & data & Hin & _). revert Hin.
    flatten_shown. intros Hin. not_shown_in Hin.
  - rewrite call_llm_cases. flatten_shown.
    set (prompt := build_prompt _ _ _ _ _ (flight :: others)).
    split.
    + intros Hin. exists (flight :: others).
      destruct (llm (llm_request prompt)) as [detail|st b] eqn:Hllm;
        [|destruct (decide (error_status st)) as [Hst|Hst]; [|destruct b as [data|]]];
        try (rewrite error_marker_prefix in Hin; cbn [app] in Hin; not_shown_in Hin).
      exists st, data.
      destruct (String.prefix _ _) eqn:Hmarker; cbn [app] in Hin;
        [not_shown_in Hin|].
      split; [is_shown|]. now repeat split.
    + intros (flights & st & data & Hin & Hllm & Hst & Hmarker). revert Hllm.
      do 6 (apply elem_of_cons in Hin as [Hin|Hin]; [discriminate|]).
      apply elem_of_cons in Hin as [[= ->]|Hin].
      * fold prompt. intros Hllm. rewrite Hllm.
        destruct (decide (error_status st)); [contradiction|].
        rewrite Hmarker. cbn [app]. is_shown.
      * exfalso. apply elem_of_cons in Hin as [Hin|Hin]; [discriminate|].
        apply elem_of_cons in Hin as [Hin|Hin]; [discriminate|].
        destruct (String.prefix _ _); cbn [app] in Hin; not_shown_in Hin.
  - split.
    + destruct e; flatten_shown; intros Hin; not_shown_in Hin.
    + intros (flights & st & data & Hin & _). revert Hin.
      destruct e; flatten_shown; intros Hin; not_shown_in Hin.
Qed.

(** X22: The marker is in band: a reply of the model that begins with
    ["ERROR calling Ollama"] is displayed as an error, not as a
    recommendation. *)
Theorem main_reply_shown_as_error (w : widgets D) (flights : list FlightOffer)
    (st : Z) (data : generate_payload) :
  st_dataframe flights ∈ shown (script w) ->
  llm (llm_request
         (build_prompt (origin_input w) (destination_input w)
            (isoformat (fst (travel_dates today (date_range w))))
            (isoformat (snd (travel_dates today (date_range w))))
            (if String.eqb (flight_option w) "Direct only" then 0 else 1)
            flights))
  = Response st (Some data) ->
  ~ error_status st ->
  String.prefix "ERROR calling Ollama" (strip (get (response_field data) "")) = true ->
  st_error (strip (get (response_field data) "")) ∈ shown (script w)
  /\ st_markdown "### LLM Recommendation" ∉ shown (script w).
Proof.
  run_main w; try (flatten_shown; intros Hin; not_shown_in Hin).
  destruct (search_flights_amadeus _ _ _ _ _ _ _ _ _)
    as [calls [[|flight others]|e]] eqn:Hsearch.
  - flatten_shown. intros Hin. not_shown_in Hin.
  - rewrite call_llm_cases. flatten_shown. intros Hin.
    do 6 (apply elem_of_cons in Hin as [Hin|Hin]; [discriminate|]).
    apply elem_of_cons in Hin as [[= ->]|Hin];
      [|destruct (String.prefix _ _); cbn [app] in Hin; not_shown_in Hin].
    intros Hllm Hst Hmarker. rewrite Hllm.
    destruct (decide (error_status st)); [contradiction|].
    rewrite Hmarker. cbn [app]. split; [is_shown | not_shown].
  - destruct e; flatten_shown; intros Hin; not_shown_in Hin.
Qed.

End Script.

(** ** The sample run of the page *)

Lemma main_without_search_witness :
  amadeus_calls (sample_main (replying "QF") offering
                   (sample_widgets "" sample_range true)) = []
  /\ llm_calls (sample_main (replying "QF") offering
                  (sample_widgets "" sample_range true)) = []
  /\ outcome (sample_main (replying "QF") offering
                (sample_widgets "" sample_range true)) = Ret tt.
Proof.
  apply (main_without_search sample_describe (replying "QF") string (fun d => d)
           "2025-12-03" float_rejecting configured offering sample_prompt
           (sample_widgets "" sample_range true)).
  right. left. reflexivity.
Defined.

Lemma main_request_query_witness :
  search_button (sample_widgets "Sydney (SYD)" sample_range true) = true
  /\ "Sydney (SYD)" <> EmptyString /\ "Seoul (ICN)" <> EmptyString
  /\ get_params (search_request "token" "Sydney (SYD)" "Seoul (ICN)"
                   "2025-12-03" (Some "2025-12-10") 1) !! "originLocationCode"
     = Some (PStr "SYD")
  /\ get_params (search_request "token" "Sydney (SYD)" "Seoul (ICN)"
                   "2025-12-03" (Some "2025-12-10") 1) !! "destinationLocationCode"
     = Some (PStr "ICN")
  /\ get_params (search_request "token" "Sydney (SYD)" "Seoul (ICN)"
                   "2025-12-03" (Some "2025-12-10") 1) !! "departureDate"
     = Some (PStr "2025-12-03")
  /\ get_params (search_request "token" "Sydney (SYD)" "Seoul (ICN)"
                   "2025-12-03" (Some "2025-12-10") 1) !! "nonStop"
     = None.
Proof.
  apply (main_request_query sample_describe (replying "QF") string (fun d => d)
           "2025-12-03" float_rejecting configured offering sample_prompt
           (sample_widgets "Sydney (SYD)" sample_range true)
           (search_request "token" "Sydney (SYD)" "Seoul (ICN)"
              "2025-12-03" (Some "2025-12-10") 1)).
  vm_compute. apply list_elem_of_further, list_elem_of_here.
Defined.

Lemma main_return_date_witness :
  get_params (search_request "token" "Sydney (SYD)" "Seoul (ICN)"
                "2025-12-03" (Some "2025-12-10") 1) !! "returnDate"
  = Some (PStr "2025-12-10").
Proof.
  apply (main_return_date sample_describe (replying "QF") string (fun d => d)
           "2025-12-03" float_rejecting configured offering sample_prompt
           (sample_widgets "Sydney (SYD)" sample_range true)
           (search_request "token" "Sydney (SYD)" "Seoul (ICN)"
              "2025-12-03" (Some "2025-12-10") 1)).
  vm_compute. apply list_elem_of_further, list_elem_of_here.
Defined.

Lemma main_blank_place_searched_witness :
  exists req,
    amadeus_calls (sample_main (replying "QF") offering
                     (sample_widgets "   " sample_range true))
    = [Post (token_request configured); Get req]
    /\ get_params req !! "originLocationCode" = Some (PStr EmptyString).
Proof.
  apply (main_blank_place_searched sample_describe (replying "QF") string (fun d => d)
           "2025-12-03" float_rejecting configured offering sample_prompt
           (sample_widgets "   " sample_range true)
           [Post (token_request configured)] "token").
  - reflexivity.
  - discriminate.
  - discriminate.
  - vm_compute. reflexivity.
  - reflexivity.
Defined.

Lemma main_dataframe_witness :
  sample_records <> []
  /\ Forall (fun record => 0 <= fo_stops record <= 1) sample_records.
Proof.
  apply (main_dataframe sample_describe (replying "QF") string (fun d => d)
           "2025-12-03" float_rejecting configured offering sample_prompt
           (sample_widgets "Sydney (SYD)" sample_range true) sample_records).
  vm_compute. do 6 apply list_elem_of_further. apply list_elem_of_here.
Defined.

Lemma main_uncaught_witness :
  (RequestException InvalidJSON = RequestException InvalidJSON
   \/ RequestException InvalidJSON = ValueError
   \/ RequestException InvalidJSON = OverflowError)
  /\ (exists token,
        amadeus_calls (sample_main (replying "QF") (answering 200 None)
                         (sample_widgets "Sydney (SYD)" sample_range true))
        = [Post (token_request configured);
           Get (search_request token "Sydney (SYD)" "Seoul (ICN)"
                  "2025-12-03" (Some "2025-12-10") 1)])
  /\ llm_calls (sample_main (replying "QF") (answering 200 None)
                  (sample_widgets "Sydney (SYD)" sample_range true)) = []
  /\ forall flights,
       st_dataframe flights
       ∉ shown (sample_main (replying "QF") (answering 200 None)
                  (sample_widgets "Sydney (SYD)" sample_range true)).
Proof.
  apply (main_uncaught sample_describe (replying "QF") string (fun d => d)
           "2025-12-03" float_rejecting configured (answering 200 None) sample_prompt
           (sample_widgets "Sydney (SYD)" sample_range true)
           (RequestException InvalidJSON)).
  - intros s e'. unfold float_rejecting. now intros [= <-].
  - vm_compute. reflexivity.
Defined.

Lemma main_reply_shown_as_error_witness :
  st_error "ERROR calling Ollama is what the log said"
  ∈ shown (sample_main (replying "  ERROR calling Ollama is what the log said ")
             offering (sample_widgets "Sydney (SYD)" sample_range true))
  /\ st_markdown "### LLM Recommendation"
     ∉ shown (sample_main (replying "  ERROR calling Ollama is what the log said ")
                offering (sample_widgets "Sydney (SYD)" sample_range true)).
Proof.
  apply (main_reply_shown_as_error sample_describe
           (replying "  ERROR calling Ollama is what the log said ")
           string (fun d => d)
           "2025-12-03" float_rejecting configured offering sample_prompt
           (sample_widgets "Sydney (SYD)" sample_range true) sample_records 200
           {| response_field := Some "  ERROR calling Ollama is what the log said " |}).
  - vm_compute. do 6 apply list_elem_of_further. apply list_elem_of_here.
  - reflexivity.
  - unfold error_status. lia.
  - vm_compute. reflexivity.
Defined.
